(** * PennyLane: basis-set loader, kernel cost functions and the Autograd
      batch-execution interface

    A shallow embedding of
    - [qchem/pennylane_qchem/hf/basis_set.py]   (module [BasisSet]),
    - [pennylane/kernels/cost_functions.py]     (module [Kernels]),
    - [pennylane/interfaces/batch/autograd.py]  (module [Autograd]),
    with the properties their specification states about them. *)

From Stdlib Require Import ZArith List String Ascii Lia.
From stdpp Require Import base option list strings gmap.

Local Open Scope string_scope.
Local Open Scope list_scope.

(** ** Python exceptions and fallible results *)

Inductive exn : Type :=
  | ValueError (msg : string)
  | KeyError (key : string)
  | IndexError
  | AttributeError (msg : string)
  | Exception (msg : string).

Inductive result (A : Type) : Type :=
  | Ok (a : A)
  | Raise (e : exn).
Arguments Ok {A} a.
Arguments Raise {A} e.

Definition rbind {A B} (r : result A) (k : A -> result B) : result B :=
  match r with
  | Ok a => k a
  | Raise e => Raise e
  end.

(** [d[k]] on a Python dict with string keys. *)
Definition dict_get {V} (d : gmap string V) (k : string) : result V :=
  match d !! k with
  | Some v => Ok v
  | None => Raise (KeyError k)
  end.

(** [l[i]] on a Python list, for an index that is not negative. *)
Definition list_get {V} (l : list V) (i : nat) : result V :=
  match l !! i with
  | Some v => Ok v
  | None => Raise IndexError
  end.

(** [mapM f l] runs [f] on the elements of [l] from left to right and stops
    at the first exception. *)
Fixpoint mapM {A B} (f : A -> result B) (l : list A) : result (list B) :=
  match l with
  | [] => Ok []
  | a :: l' =>
      rbind (f a) (fun b => rbind (mapM f l') (fun bs => Ok (b :: bs)))
  end.

Definition sum_list (l : list nat) : nat := fold_right Nat.add 0 l.

Lemma length_concat_sum {A} (ls : list (list A)) :
  length (concat ls) = sum_list (map (@length A) ls).
Proof.
  induction ls as [|l ls IH]; simpl; [reflexivity|].
  rewrite length_app, IH. reflexivity.
Qed.

(** ** basis_set.py *)

Module BasisSet.

Section basis.
(** The type of the exponents and contraction coefficients (Python floats). *)
Context {num : Type}.

(** An entry of the basis data: the dict with the keys ["orbitals"],
    ["exponents"] and ["coefficients"] that [basis_data.py] stores for
    every atom. *)
Record atom_entry : Type := {
  orbitals : list string;
  exponents : list (list num);
  coefficients : list (list num)
}.

(** The table [STO3G] imported from [basis_data.py]. *)
Variable STO3G : gmap string atom_entry.

Definition ang : Type := (nat * nat * nat)%type.

(** A basis function's parameters: angular momentum, exponents and
    contraction coefficients. *)
Definition param : Type := (ang * list num * list num)%type.

Definition basis_sets : gmap string (gmap string atom_entry) :=
  {[ "sto-3g" := STO3G ]}.

Definition s : list ang := [(0, 0, 0)].
Definition p : list ang := [(0, 0, 1); (0, 1, 0); (1, 0, 0)].

(** [for l in p: params.append((l, basis["exponents"][i],
    basis["coefficients"][i + 1]))] *)
Fixpoint p_loop (basis : atom_entry) (i : nat) (ls : list ang)
    (params : list param) : result (list param) :=
  match ls with
  | [] => Ok params
  | l :: ls' =>
      rbind (list_get (exponents basis) i) (fun e =>
      rbind (list_get (coefficients basis) (i + 1)) (fun c =>
      p_loop basis i ls' (params ++ [(l, e, c)])))
  end.

(** [for term in j:] with its two [if] statements. *)
Fixpoint term_loop (basis : atom_entry) (i : nat) (terms : list ascii)
    (params : list param) : result (list param) :=
  match terms with
  | [] => Ok params
  | term :: terms' =>
      rbind (if Ascii.eqb term "S"%char then
               rbind (list_get s 0) (fun s0 =>
               rbind (list_get (exponents basis) i) (fun e =>
               rbind (list_get (coefficients basis) i) (fun c =>
               Ok (params ++ [(s0, e, c)]))))
             else Ok params) (fun params1 =>
      rbind (if Ascii.eqb term "P"%char then p_loop basis i p params1
             else Ok params1) (fun params2 =>
      term_loop basis i terms' params2))
  end.

(** [for i, j in enumerate(basis["orbitals"]):] *)
Fixpoint orbital_loop (basis : atom_entry) (i : nat) (orbs : list string)
    (params : list param) : result (list param) :=
  match orbs with
  | [] => Ok params
  | j :: orbs' =>
      rbind (if String.eqb j "S" then
               rbind (list_get s 0) (fun s0 =>
               rbind (list_get (exponents basis) i) (fun e =>
               rbind (list_get (coefficients basis) i) (fun c =>
               Ok (params ++ [(s0, e, c)]))))
             else if String.eqb j "SP" then
               term_loop basis i (list_ascii_of_string j) params
             else Ok params) (fun params' =>
      orbital_loop basis (S i) orbs' params')
  end.

Definition atom_basis_data (name atom : string) : result (list param) :=
  rbind (dict_get basis_sets name) (fun table =>
  rbind (dict_get table atom) (fun basis =>
  orbital_loop basis 0 (orbitals basis) [])).

(** [for s in symbols:] with the two accumulators [n_basis] and
    [basis_set]. *)
Fixpoint symbol_loop (name : string) (symbols : list string)
    (n_basis : list nat) (basis_set : list param)
    : result (list nat * list param) :=
  match symbols with
  | [] => Ok (n_basis, basis_set)
  | sym :: symbols' =>
      rbind (atom_basis_data name sym) (fun basis =>
      symbol_loop name symbols' (n_basis ++ [length basis])
        (basis_set ++ basis))
  end.

Definition mol_basis_data (name : string) (symbols : list string)
    : result (list nat * list param) :=
  symbol_loop name symbols [] [].

(** *** Properties *)

Lemma symbol_loop_ok name symbols bs :
  Forall2 (fun sym b => atom_basis_data name sym = Ok b) symbols bs ->
  forall n_basis basis_set,
    symbol_loop name symbols n_basis basis_set
    = Ok (n_basis ++ map (@length param) bs, basis_set ++ concat bs).
Proof.
  induction 1 as [|sym b symbols bs Hb _ IH]; intros n_basis basis_set.
  - simpl. rewrite !app_nil_r. reflexivity.
  - simpl. rewrite Hb. simpl. rewrite IH.
    rewrite <- !app_assoc. reflexivity.
Qed.

(** The loop stops at the first atom whose data cannot be built. *)
Lemma symbol_loop_raise name pre sym post e n_basis basis_set bs :
  Forall2 (fun sym b => atom_basis_data name sym = Ok b) pre bs ->
  atom_basis_data name sym = Raise e ->
  symbol_loop name (pre ++ sym :: post) n_basis basis_set = Raise e.
Proof.
  intros Hpre Hsym. revert n_basis basis_set.
  induction Hpre as [|x b pre bs Hb _ IH]; intros n_basis basis_set.
  - simpl. rewrite Hsym. reflexivity.
  - simpl. rewrite Hb. simpl. apply IH.
Qed.

(** [mol_basis_data] collects the atoms' data from left to right and raises
    what the first failing atom raises. *)
Lemma symbol_loop_mapM name symbols :
  forall n_basis basis_set,
    symbol_loop name symbols n_basis basis_set
    = rbind (mapM (atom_basis_data name) symbols) (fun bs =>
        Ok (n_basis ++ map (@length param) bs, basis_set ++ concat bs)).
Proof.
  induction symbols as [|sym symbols IH]; intros n_basis basis_set; simpl.
  - rewrite !app_nil_r. reflexivity.
  - destruct (atom_basis_data name sym) as [b|e]; simpl; [|reflexivity].
    rewrite IH.
    destruct (mapM (atom_basis_data name) symbols) as [bs|e]; simpl;
      [|reflexivity].
    rewrite <- !app_assoc. reflexivity.
Qed.

Lemma mol_basis_data_mapM name symbols :
  mol_basis_data name symbols
  = rbind (mapM (atom_basis_data name) symbols) (fun bs =>
      Ok (map (@length param) bs, concat bs)).
Proof. unfold mol_basis_data. rewrite symbol_loop_mapM. reflexivity. Qed.

(** A name other than ["sto-3g"] is not a key of [basis_sets]. *)
Lemma atom_basis_data_unknown_name name atom :
  name <> "sto-3g" -> atom_basis_data name atom = Raise (KeyError name).
Proof.
  intros Hne. unfold atom_basis_data, dict_get, basis_sets.
  rewrite lookup_singleton_ne by congruence. reflexivity.
Qed.

(** An atom that the table does not list raises [KeyError]. *)
Lemma atom_basis_data_unknown_atom atom :
  STO3G !! atom = None ->
  atom_basis_data "sto-3g" atom = Raise (KeyError atom).
Proof.
  intros Hnone. unfold atom_basis_data, dict_get, basis_sets.
  rewrite lookup_singleton_eq. simpl. rewrite Hnone. reflexivity.
Qed.

(** C10. [mol_basis_data name symbols], where [bs] lists, symbol by symbol,
    what [atom_basis_data name] returns, is the pair [(n_basis, params)]
    with one entry of [n_basis] per symbol, the length of that symbol's
    [atom_basis_data]; [params] is the concatenation of the atoms'
    parameters in symbol order, and its length is the sum of [n_basis]. *)
Theorem mol_basis_data_spec (name : string) (symbols : list string)
    (bs : list (list param)) :
  Forall2 (fun sym b => atom_basis_data name sym = Ok b) symbols bs ->
  exists n_basis params,
    mol_basis_data name symbols = Ok (n_basis, params)
    /\ length n_basis = length symbols
    /\ (forall i sym, symbols !! i = Some sym ->
          exists b, atom_basis_data name sym = Ok b
                    /\ n_basis !! i = Some (length b))
    /\ params = concat bs
    /\ length params = sum_list n_basis.
Proof.
  intros Hbs.
  exists (map (@length param) bs), (concat bs).
  split; [|split; [|split; [|split]]].
  - unfold mol_basis_data. rewrite (symbol_loop_ok _ _ _ Hbs). reflexivity.
  - rewrite length_map. symmetry. eapply Forall2_length, Hbs.
  - intros i sym Hi.
    destruct (Forall2_lookup_l _ _ _ _ _ Hbs Hi) as (b & Hb & Hsym).
    exists b. split; [exact Hsym|].
    rewrite list_lookup_fmap, Hb. reflexivity.
  - reflexivity.
  - apply length_concat_sum.
Qed.

(** *** One orbital at a time *)

(** The number of basis functions an orbital label stands for: other labels
    than ["S"] and ["SP"] are passed over. *)
Definition shell_size (j : string) : nat :=
  if String.eqb j "S" then 1 else if String.eqb j "SP" then 4 else 0.

(** The basis functions that one pass of the loop over the orbitals appends
    for the label [j] at index [i]. *)
Definition shell (basis : atom_entry) (i : nat) (j : string)
    : result (list param) :=
  if String.eqb j "S" then
    rbind (list_get (exponents basis) i) (fun e =>
    rbind (list_get (coefficients basis) i) (fun c =>
    Ok [((0, 0, 0), e, c)]))
  else if String.eqb j "SP" then
    rbind (list_get (exponents basis) i) (fun e =>
    rbind (list_get (coefficients basis) i) (fun c =>
    rbind (list_get (coefficients basis) (i + 1)) (fun c' =>
    Ok [((0, 0, 0), e, c); ((0, 0, 1), e, c');
        ((0, 1, 0), e, c'); ((1, 0, 0), e, c')])))
  else Ok [].

Fixpoint shells (basis : atom_entry) (i : nat) (orbs : list string)
    : result (list param) :=
  match orbs with
  | [] => Ok []
  | j :: orbs' =>
      rbind (shell basis i j) (fun fs =>
      rbind (shells basis (S i) orbs') (fun rest => Ok (fs ++ rest)))
  end.

(** The indices that the label [j] at index [i] reads are within the lists
    of the entry. *)
Definition in_range (basis : atom_entry) (i : nat) (j : string) : bool :=
  if String.eqb j "S" then
    (Nat.ltb i (length (exponents basis))
     && Nat.ltb i (length (coefficients basis)))%bool
  else if String.eqb j "SP" then
    (Nat.ltb i (length (exponents basis))
     && Nat.ltb (i + 1) (length (coefficients basis)))%bool
  else true.

Fixpoint all_in_range (basis : atom_entry) (i : nat) (orbs : list string)
    : bool :=
  match orbs with
  | [] => true
  | j :: orbs' => in_range basis i j && all_in_range basis (S i) orbs'
  end.

Lemma list_get_lt {V} (l : list V) i :
  i < length l -> exists v, list_get l i = Ok v /\ In v l.
Proof.
  intros Hlt. unfold list_get.
  destruct (l !! i) as [v|] eqn:Hv.
  - exists v. split; [reflexivity|].
    apply list_elem_of_In. eapply list_elem_of_lookup_2, Hv.
  - apply lookup_ge_None in Hv. lia.
Qed.

Lemma list_get_ge {V} (l : list V) i :
  length l <= i -> list_get l i = Raise IndexError.
Proof.
  intros Hge. unfold list_get. rewrite (proj2 (lookup_ge_None l i) Hge).
  reflexivity.
Qed.

Lemma list_get_Ok_In {V} (l : list V) i v : list_get l i = Ok v -> In v l.
Proof.
  unfold list_get. destruct (l !! i) as [w|] eqn:Hw; [|discriminate].
  intros [= <-]. apply list_elem_of_In. eapply list_elem_of_lookup_2, Hw.
Qed.

(** One pass of the loop over the orbitals appends [shell basis i j]. *)
Lemma orbital_loop_step basis i j orbs params :
  orbital_loop basis i (j :: orbs) params
  = rbind (shell basis i j) (fun fs =>
      orbital_loop basis (S i) orbs (params ++ fs)).
Proof.
  simpl. unfold shell.
  destruct (String.eqb j "S") eqn:HS.
  - unfold list_get.
    destruct (exponents basis !! i); simpl; [|reflexivity].
    destruct (coefficients basis !! i); reflexivity.
  - destruct (String.eqb_spec j "SP") as [->|Hne].
    + simpl. unfold list_get.
      destruct (exponents basis !! i); simpl; [|reflexivity].
      destruct (coefficients basis !! i); simpl; [|reflexivity].
      destruct (coefficients basis !! (i + 1)); simpl; [|reflexivity].
      rewrite <- !app_assoc. reflexivity.
    + simpl. rewrite app_nil_r. reflexivity.
Qed.

Lemma orbital_loop_shells basis orbs :
  forall i params,
    orbital_loop basis i orbs params
    = rbind (shells basis i orbs) (fun fs => Ok (params ++ fs)).
Proof.
  induction orbs as [|j orbs IH]; intros i params.
  - simpl. rewrite app_nil_r. reflexivity.
  - rewrite orbital_loop_step. simpl shells.
    destruct (shell basis i j) as [fs|e]; simpl; [|reflexivity].
    rewrite IH.
    destruct (shells basis (S i) orbs) as [rest|e]; simpl; [|reflexivity].
    rewrite app_assoc. reflexivity.
Qed.

Lemma atom_basis_data_shells atom :
  atom_basis_data "sto-3g" atom
  = rbind (dict_get STO3G atom) (fun basis =>
      shells basis 0 (orbitals basis)).
Proof.
  unfold atom_basis_data, basis_sets.
  unfold dict_get at 1. rewrite lookup_singleton_eq. simpl.
  destruct (dict_get STO3G atom) as [basis|e]; simpl; [|reflexivity].
  rewrite orbital_loop_shells.
  destruct (shells basis 0 (orbitals basis)); reflexivity.
Qed.

(** A result of [atom_basis_data] comes from the entry of the atom in the
    table of the basis set ["sto-3g"]. *)
Lemma atom_basis_data_Ok_inv name atom params :
  atom_basis_data name atom = Ok params ->
  name = "sto-3g"
  /\ exists basis, STO3G !! atom = Some basis
                   /\ shells basis 0 (orbitals basis) = Ok params.
Proof.
  intros Hok. destruct (String.eqb_spec name "sto-3g") as [->|Hne].
  - split; [reflexivity|]. rewrite atom_basis_data_shells in Hok.
    unfold dict_get in Hok.
    destruct (STO3G !! atom) as [basis|]; [|discriminate].
    exists basis. split; [reflexivity|exact Hok].
  - rewrite atom_basis_data_unknown_name in Hok by assumption. discriminate.
Qed.

Lemma shell_length basis i j fs :
  shell basis i j = Ok fs -> length fs = shell_size j.
Proof.
  unfold shell, shell_size, list_get.
  destruct (String.eqb j "S").
  - destruct (exponents basis !! i); simpl; [|discriminate].
    destruct (coefficients basis !! i); simpl; [|discriminate].
    intros [= <-]. reflexivity.
  - destruct (String.eqb j "SP").
    + destruct (exponents basis !! i); simpl; [|discriminate].
      destruct (coefficients basis !! i); simpl; [|discriminate].
      destruct (coefficients basis !! (i + 1)); simpl; [|discriminate].
      intros [= <-]. reflexivity.
    + intros [= <-]. reflexivity.
Qed.

Lemma shells_length basis orbs :
  forall i fs, shells basis i orbs = Ok fs ->
    length fs = sum_list (map shell_size orbs).
Proof.
  induction orbs as [|j orbs IH]; intros i fs; simpl.
  - intros [= <-]. reflexivity.
  - destruct (shell basis i j) as [fs1|e] eqn:H1; simpl; [|discriminate].
    destruct (shells basis (S i) orbs) as [rest|e] eqn:H2; simpl;
      [|discriminate].
    intros [= <-]. rewrite length_app.
    rewrite (shell_length _ _ _ _ H1), (IH _ _ H2). reflexivity.
Qed.

(** The number of basis functions of an atom: one for every ["S"] of its
    orbitals and four for every ["SP"]; an orbital with another label adds
    none and raises nothing. *)
Theorem atom_basis_data_length (name atom : string) (params : list param) :
  atom_basis_data name atom = Ok params ->
  exists basis,
    STO3G !! atom = Some basis
    /\ length params = sum_list (map shell_size (orbitals basis)).
Proof.
  intros Hok. apply atom_basis_data_Ok_inv in Hok.
  destruct Hok as (_ & basis & Hbasis & Hshells).
  exists basis. split; [exact Hbasis|].
  eapply shells_length, Hshells.
Qed.

Lemma shell_in_range basis i j :
  (in_range basis i j = true -> exists fs, shell basis i j = Ok fs)
  /\ (in_range basis i j = false -> shell basis i j = Raise IndexError).
Proof.
  unfold in_range, shell.
  destruct (String.eqb j "S").
  - split.
    + intros H. apply andb_true_iff in H. destruct H as [He Hc].
      apply Nat.ltb_lt in He, Hc.
      destruct (list_get_lt _ _ He) as (e & -> & _).
      destruct (list_get_lt _ _ Hc) as (c & -> & _).
      simpl. eauto.
    + intros H. apply andb_false_iff in H.
      destruct H as [H|H]; apply Nat.ltb_ge in H.
      * rewrite (list_get_ge _ _ H). reflexivity.
      * rewrite (list_get_ge (coefficients basis) _ H). unfold list_get.
        destruct (exponents basis !! i); reflexivity.
  - destruct (String.eqb j "SP").
    + split.
      * intros H. apply andb_true_iff in H. destruct H as [He Hc].
        apply Nat.ltb_lt in He, Hc.
        destruct (list_get_lt _ _ He) as (e & -> & _).
        destruct (list_get_lt (coefficients basis) i ltac:(lia))
          as (c & -> & _).
        destruct (list_get_lt _ _ Hc) as (c' & -> & _).
        simpl. eauto.
      * intros H. apply andb_false_iff in H.
        destruct H as [H|H]; apply Nat.ltb_ge in H.
        -- rewrite (list_get_ge _ _ H). reflexivity.
        -- rewrite (list_get_ge (coefficients basis) _ H). unfold list_get.
           destruct (exponents basis !! i); simpl; [|reflexivity].
           destruct (coefficients basis !! i); reflexivity.
    + split; [eauto|discriminate].
Qed.

Lemma shell_raises basis i j e : shell basis i j = Raise e -> e = IndexError.
Proof.
  destruct (in_range basis i j) eqn:Hr.
  - destruct (proj1 (shell_in_range basis i j) Hr) as (fs & ->). discriminate.
  - rewrite (proj2 (shell_in_range basis i j) Hr). congruence.
Qed.

Lemma shells_in_range basis orbs :
  forall i,
    (all_in_range basis i orbs = true ->
       exists fs, shells basis i orbs = Ok fs)
    /\ (all_in_range basis i orbs = false ->
          shells basis i orbs = Raise IndexError).
Proof.
  induction orbs as [|j orbs IH]; intros i; simpl.
  - split; [eauto|discriminate].
  - destruct (IH (S i)) as [IHt IHf].
    destruct (shell_in_range basis i j) as [Ht Hf].
    destruct (in_range basis i j); simpl.
    + destruct (Ht eq_refl) as (fs & ->). simpl. split.
      * intros H. destruct (IHt H) as (rest & ->). simpl. eauto.
      * intros H. rewrite (IHf H). reflexivity.
    + rewrite (Hf eq_refl). split; [discriminate|reflexivity].
Qed.

(** For an atom of the table, [atom_basis_data] returns when every ["S"] at
    index [i] finds [exponents[i]] and [coefficients[i]] and every ["SP"] at
    index [i] finds [exponents[i]] and [coefficients[i + 1]]; otherwise it
    raises [IndexError]. *)
Theorem atom_basis_data_bounds (atom : string) (basis : atom_entry) :
  STO3G !! atom = Some basis ->
  (all_in_range basis 0 (orbitals basis) = true ->
     exists params, atom_basis_data "sto-3g" atom = Ok params)
  /\ (all_in_range basis 0 (orbitals basis) = false ->
        atom_basis_data "sto-3g" atom = Raise IndexError).
Proof.
  intros Hbasis. rewrite atom_basis_data_shells.
  unfold dict_get. rewrite Hbasis. simpl.
  apply shells_in_range.
Qed.

Lemma shell_members basis i j fs :
  shell basis i j = Ok fs ->
  Forall (fun f : param =>
            In (fst (fst f)) (s ++ p)
            /\ In (snd (fst f)) (exponents basis)
            /\ In (snd f) (coefficients basis)) fs.
Proof.
  unfold shell.
  destruct (String.eqb j "S").
  - destruct (list_get (exponents basis) i) as [e|] eqn:He; simpl;
      [|discriminate].
    destruct (list_get (coefficients basis) i) as [c|] eqn:Hc; simpl;
      [|discriminate].
    intros [= <-]. apply list_get_Ok_In in He, Hc.
    repeat (apply List.Forall_cons;
              [split; [simpl; auto 10 | split; assumption]|]);
      apply List.Forall_nil.
  - destruct (String.eqb j "SP").
    + destruct (list_get (exponents basis) i) as [e|] eqn:He; simpl;
        [|discriminate].
      destruct (list_get (coefficients basis) i) as [c|] eqn:Hc; simpl;
        [|discriminate].
      destruct (list_get (coefficients basis) (i + 1)) as [c'|] eqn:Hc';
        simpl; [|discriminate].
      intros [= <-]. apply list_get_Ok_In in He, Hc, Hc'.
      repeat (apply List.Forall_cons;
              [split; [simpl; auto 10 | split; assumption]|]);
      apply List.Forall_nil.
    + intros [= <-]. constructor.
Qed.

Lemma shells_members basis orbs :
  forall i fs, shells basis i orbs = Ok fs ->
    Forall (fun f : param =>
              In (fst (fst f)) (s ++ p)
              /\ In (snd (fst f)) (exponents basis)
              /\ In (snd f) (coefficients basis)) fs.
Proof.
  induction orbs as [|j orbs IH]; intros i fs; simpl.
  - intros [= <-]. constructor.
  - destruct (shell basis i j) as [fs1|e] eqn:H1; simpl; [|discriminate].
    destruct (shells basis (S i) orbs) as [rest|e] eqn:H2; simpl;
      [|discriminate].
    intros [= <-]. apply Forall_app. split.
    + eapply shell_members, H1.
    + eapply IH, H2.
Qed.

(** Every basis function that [atom_basis_data] returns has one of the four
    angular momenta of [s] and [p], with a list of exponents and a list of
    coefficients of the entry of the atom. *)
Theorem atom_basis_data_members (name atom : string) (params : list param) :
  atom_basis_data name atom = Ok params ->
  exists basis,
    STO3G !! atom = Some basis
    /\ Forall (fun f : param =>
                 In (fst (fst f)) (s ++ p)
                 /\ In (snd (fst f)) (exponents basis)
                 /\ In (snd f) (coefficients basis)) params.
Proof.
  intros Hok. apply atom_basis_data_Ok_inv in Hok.
  destruct Hok as (_ & basis & Hbasis & Hshells).
  exists basis. split; [exact Hbasis|].
  eapply shells_members, Hshells.
Qed.

(** An error of [atom_basis_data] is the [KeyError] of the name, the
    [KeyError] of the atom, or [IndexError]. *)
Lemma atom_basis_data_raises name atom e :
  atom_basis_data name atom = Raise e ->
  (name <> "sto-3g" /\ e = KeyError name)
  \/ (name = "sto-3g" /\ STO3G !! atom = None /\ e = KeyError atom)
  \/ (name = "sto-3g" /\ is_Some (STO3G !! atom) /\ e = IndexError).
Proof.
  intros Hraise. destruct (String.eqb_spec name "sto-3g") as [->|Hne].
  - right. rewrite atom_basis_data_shells in Hraise. unfold dict_get in Hraise.
    destruct (STO3G !! atom) as [basis|] eqn:Hbasis; simpl in Hraise.
    + right. split; [reflexivity|]. split; [eauto|].
      destruct (all_in_range basis 0 (orbitals basis)) eqn:Hr.
      * destruct (proj1 (shells_in_range basis (orbitals basis) 0) Hr)
          as (fs & Hfs). congruence.
      * rewrite (proj2 (shells_in_range basis (orbitals basis) 0) Hr)
          in Hraise. congruence.
    + left. split; [reflexivity|]. split; [reflexivity|]. congruence.
  - left. rewrite atom_basis_data_unknown_name in Hraise by assumption.
    split; [assumption|congruence].
Qed.

(** The basis functions come orbital by orbital, in the order of the orbitals
    of the entry: ["S"] at index [i] gives the function of [exponents[i]] and
    [coefficients[i]]; ["SP"] at index [i] gives that function and then the
    three functions of [p], with [exponents[i]] and [coefficients[i + 1]]. *)
Theorem atom_basis_data_by_orbital (name atom : string) :
  atom_basis_data name atom
  = rbind (dict_get basis_sets name) (fun table =>
    rbind (dict_get table atom) (fun basis =>
    shells basis 0 (orbitals basis))).
Proof.
  unfold atom_basis_data.
  destruct (dict_get basis_sets name) as [table|e]; simpl; [|reflexivity].
  destruct (dict_get table atom) as [basis|e]; simpl; [|reflexivity].
  rewrite orbital_loop_shells.
  destruct (shells basis 0 (orbitals basis)); reflexivity.
Qed.

(** *** Molecules *)

Lemma mapM_app {A B} (f : A -> result B) (l1 l2 : list A) :
  mapM f (l1 ++ l2)
  = rbind (mapM f l1) (fun bs1 =>
      rbind (mapM f l2) (fun bs2 => Ok (bs1 ++ bs2))).
Proof.
  induction l1 as [|a l1 IH]; simpl.
  - destruct (mapM f l2); reflexivity.
  - destruct (f a) as [b|e]; simpl; [|reflexivity].
    rewrite IH. destruct (mapM f l1) as [bs1|e]; simpl; [|reflexivity].
    destruct (mapM f l2); reflexivity.
Qed.

(** With a name that is not ["sto-3g"], [mol_basis_data] raises the
    [KeyError] of the name as soon as there is a symbol; without a symbol the
    name is never looked up and the result is empty. *)
Theorem mol_basis_data_unknown_name (name : string) (symbols : list string) :
  name <> "sto-3g" ->
  mol_basis_data name symbols
  = match symbols with
    | [] => Ok ([], [])
    | _ :: _ => Raise (KeyError name)
    end.
Proof.
  intros Hne. unfold mol_basis_data.
  destruct symbols as [|sym symbols]; [reflexivity|].
  simpl. rewrite atom_basis_data_unknown_name by assumption. reflexivity.
Qed.

(** [mol_basis_data] raises the [KeyError] of the first symbol that the
    table does not list, when the atoms before it have their data. *)
Theorem mol_basis_data_unknown_atom_first (pre post : list string)
    (sym : string) (bs : list (list param)) :
  Forall2 (fun x b => atom_basis_data "sto-3g" x = Ok b) pre bs ->
  STO3G !! sym = None ->
  mol_basis_data "sto-3g" (pre ++ sym :: post) = Raise (KeyError sym).
Proof.
  intros Hpre Hnone. unfold mol_basis_data.
  eapply symbol_loop_raise; [exact Hpre|].
  apply atom_basis_data_unknown_atom. exact Hnone.
Qed.

(** The data of a molecule written as two lists of symbols, one after the
    other, are the data of the two lists, one after the other; an error of
    the first list comes first. *)
Theorem mol_basis_data_app (name : string) (symbols1 symbols2 : list string) :
  mol_basis_data name (symbols1 ++ symbols2)
  = rbind (mol_basis_data name symbols1) (fun r1 =>
      rbind (mol_basis_data name symbols2) (fun r2 =>
        Ok (fst r1 ++ fst r2, snd r1 ++ snd r2))).
Proof.
  rewrite !mol_basis_data_mapM, mapM_app.
  destruct (mapM (atom_basis_data name) symbols1) as [bs1|e]; simpl;
    [|reflexivity].
  destruct (mapM (atom_basis_data name) symbols2) as [bs2|e]; simpl;
    [|reflexivity].
  rewrite map_app, concat_app. reflexivity.
Qed.

End basis.

Arguments atom_entry : clear implicits.

(** The hydrogen and lithium entries, with the exponents and coefficients
    scaled to integers. *)
Definition demo_table : gmap string (atom_entry Z) :=
  {[ "H" := {| orbitals := ["S"];
               exponents := [[3425250914; 623913729; 168855404]];
               coefficients := [[154328967; 535328142; 444634542]] |};
     "Li" := {| orbitals := ["S"; "SP"];
                exponents := [[16119575; 2936201; 794651];
                              [636290; 147860; 48089]];
                coefficients := [[154329; 535328; 444635];
                                 [-99967; 399513; 700115];
                                 [155916; 607684; 391957]] |} ]}%Z.

Definition H_params : list (@param Z) :=
  [((0, 0, 0), [3425250914; 623913729; 168855404]%Z,
    [154328967; 535328142; 444634542]%Z)].

Example atom_basis_data_H :
  atom_basis_data demo_table "sto-3g" "H" = Ok H_params.
Proof. vm_compute. reflexivity. Qed.

Example mol_basis_data_HH :
  mol_basis_data demo_table "sto-3g" ["H"; "H"]
  = Ok ([1; 1], H_params ++ H_params).
Proof. vm_compute. reflexivity. Qed.

Example mol_basis_data_LiH :
  (fun r => match r with Ok (n, ps) => Some (n, length ps) | Raise _ => None end)
    (mol_basis_data demo_table "sto-3g" ["Li"; "H"])
  = Some ([5; 1], 6).
Proof. vm_compute. reflexivity. Qed.

Example mol_basis_data_unknown_atom :
  mol_basis_data demo_table "sto-3g" ["H"; "Xx"] = Raise (KeyError "Xx").
Proof. vm_compute. reflexivity. Qed.

Lemma mol_basis_data_spec_witness :
  exists n_basis params,
    mol_basis_data demo_table "sto-3g" ["H"; "H"] = Ok (n_basis, params)
    /\ length n_basis = 2
    /\ params = H_params ++ H_params
    /\ length params = sum_list n_basis.
Proof.
  destruct (mol_basis_data_spec demo_table "sto-3g" ["H"; "H"]
              [H_params; H_params])
    as (n_basis & params & Hrun & Hlen & _ & Hcat & Hsum).
  - repeat constructor.
  - exists n_basis, params. repeat split; assumption.
Defined.

(** *** More atoms *)

Definition Li_params : list (@param Z) :=
  Eval cbv in
    match atom_basis_data demo_table "sto-3g" "Li" with
    | Ok params => params
    | Raise _ => []
    end.

(** An entry that is one list of coefficients short for its ["SP"]. *)
Definition short_entry : atom_entry Z :=
  {| orbitals := ["S"; "SP"];
     exponents := [[71616837; 13045096; 3530512]; [2941249; 683483; 222289]];
     coefficients := [[154329; 535328; 444635]; [-99967; 399513; 700115]] |}%Z.

Definition short_table : gmap string (atom_entry Z) :=
  {[ "Be" := short_entry ]}.

(** An entry with an orbital label that the loop passes over. *)
Definition d_entry : atom_entry Z :=
  {| orbitals := ["S"; "D"];
     exponents := [[1; 2; 3]]%Z;
     coefficients := [[4; 5; 6]]%Z |}.

Example atom_basis_data_skips_other_labels :
  atom_basis_data {[ "Sc" := d_entry ]} "sto-3g" "Sc"
  = Ok [((0, 0, 0), [1; 2; 3]%Z, [4; 5; 6]%Z)].
Proof. vm_compute. reflexivity. Qed.

Lemma atom_basis_data_length_witness :
  exists basis,
    demo_table !! "Li" = Some basis
    /\ length Li_params = sum_list (map shell_size (orbitals basis)).
Proof.
  apply (atom_basis_data_length demo_table "sto-3g" "Li" Li_params).
  vm_compute. reflexivity.
Defined.

Lemma atom_basis_data_bounds_witness :
  (exists params, atom_basis_data demo_table "sto-3g" "Li" = Ok params)
  /\ atom_basis_data short_table "sto-3g" "Be" = Raise IndexError.
Proof.
  split.
  - refine (proj1 (atom_basis_data_bounds demo_table "Li" _ _) _);
      vm_compute; reflexivity.
  - refine (proj2 (atom_basis_data_bounds short_table "Be" short_entry _) _);
      vm_compute; reflexivity.
Defined.

Lemma atom_basis_data_members_witness :
  exists basis,
    demo_table !! "Li" = Some basis
    /\ Forall (fun f : @param Z =>
                 In (fst (fst f)) (s ++ p)
                 /\ In (snd (fst f)) (exponents basis)
                 /\ In (snd f) (coefficients basis)) Li_params.
Proof.
  apply (atom_basis_data_members demo_table "sto-3g" "Li" Li_params).
  vm_compute. reflexivity.
Defined.

Lemma atom_basis_data_raises_witness :
  ("sto-3g" <> "sto-3g" /\ IndexError = KeyError "sto-3g")
  \/ ("sto-3g" = "sto-3g" /\ short_table !! "Be" = None
      /\ IndexError = KeyError "Be")
  \/ ("sto-3g" = "sto-3g" /\ is_Some (short_table !! "Be")
      /\ IndexError = IndexError).
Proof.
  apply (atom_basis_data_raises short_table "sto-3g" "Be" IndexError).
  vm_compute. reflexivity.
Defined.

Lemma mol_basis_data_unknown_name_witness :
  mol_basis_data demo_table "6-31g" ["H"; "H"] = Raise (KeyError "6-31g")
  /\ mol_basis_data demo_table "6-31g" [] = Ok ([], []).
Proof.
  split.
  - apply (mol_basis_data_unknown_name demo_table "6-31g" ["H"; "H"]).
    discriminate.
  - apply (mol_basis_data_unknown_name demo_table "6-31g" []).
    discriminate.
Defined.

Lemma mol_basis_data_unknown_atom_first_witness :
  mol_basis_data demo_table "sto-3g" ["H"; "Na"; "Xx"]
  = Raise (KeyError "Na").
Proof.
  apply (mol_basis_data_unknown_atom_first demo_table ["H"] ["Xx"] "Na"
           [H_params]).
  - repeat constructor.
  - vm_compute. reflexivity.
Defined.

(** *** The class BasisFunction *)

Section basis_function.
Context {num : Type}.

(** An object of the class: the attributes that [__init__] sets. *)
Record BasisFunction : Type := {
  l : ang;
  alpha : list num;
  coeff : list num;
  rgaus : list num;
  params : list (list num)
}.

Definition BasisFunction_init (l : ang) (alpha coeff rgaus : list num)
    : BasisFunction :=
  {| l := l; alpha := alpha; coeff := coeff; rgaus := rgaus;
     params := [alpha; coeff; rgaus] |}.

End basis_function.

End BasisSet.

(** ** kernels/cost_functions.py *)

Module Kernels.

Section cost_functions.
(** Datapoints and the numbers of the kernel values and class labels. *)
Context {datapoint num : Type}.

Definition matrix : Type := list (list num).

(** [y == 1] on a label, [y / n] of a label by a count, and the product of
    two labels. *)
Variable eq_one : num -> bool.
Variable div_count : num -> Z -> num.
Variable mul : num -> num -> num.

(** [square_kernel_matrix] of [kernels/utils.py] and
    [frobenius_inner_product] of [utils.py]; either may raise. *)
Variable square_kernel_matrix :
  list datapoint -> (datapoint -> datapoint -> num) -> bool -> result matrix.
Variable frobenius_inner_product : matrix -> matrix -> bool -> result num.

(** [np.count_nonzero(np.array(Y) == 1)] *)
Definition count_nonzero_eq_one (Y : list num) : Z :=
  Z.of_nat (length (filter (fun y => eq_one y = true) Y)).

(** [np.outer(a, b)] *)
Definition outer (a b : list num) : matrix :=
  map (fun x => map (fun y => mul x y) b) a.

Definition polarity (X : list datapoint) (Y : list num)
    (kernel : datapoint -> datapoint -> num)
    (assume_normalized_kernel rescale_class_labels normalize : bool)
    : result num :=
  rbind (square_kernel_matrix X kernel assume_normalized_kernel) (fun K =>
  let _Y :=
    if rescale_class_labels then
      let nplus := count_nonzero_eq_one Y in
      let nminus := (Z.of_nat (length Y) - nplus)%Z in
      map (fun y => if eq_one y then div_count y nplus
                    else div_count y nminus) Y
    else Y in
  let T := outer _Y _Y in
  frobenius_inner_product K T normalize).

Definition target_alignment (X : list datapoint) (Y : list num)
    (kernel : datapoint -> datapoint -> num)
    (assume_normalized_kernel rescale_class_labels : bool) : result num :=
  polarity X Y kernel assume_normalized_kernel rescale_class_labels true.

(** The values of the keyword arguments a caller leaves out. *)
Definition default_assume_normalized_kernel : bool := false.
Definition default_rescale_class_labels : bool := true.
Definition default_normalize : bool := false.

(** Without rescaling the labels enter the outer product as they are. *)
Lemma polarity_no_rescale X Y kernel a normalize :
  polarity X Y kernel a false normalize
  = rbind (square_kernel_matrix X kernel a)
      (fun K => frobenius_inner_product K (outer Y Y) normalize).
Proof. reflexivity. Qed.

(** [polarity] raises what [square_kernel_matrix] raises. *)
Lemma polarity_raise X Y kernel a r normalize e :
  square_kernel_matrix X kernel a = Raise e ->
  polarity X Y kernel a r normalize = Raise e.
Proof. intros H. unfold polarity. rewrite H. reflexivity. Qed.

(** C9. For every dataset, label list, kernel and setting of the two
    flags, [target_alignment] returns (or raises) exactly what [polarity]
    does on the same arguments with [normalize=True]. *)
Theorem target_alignment_is_normalized_polarity
    (X : list datapoint) (Y : list num)
    (kernel : datapoint -> datapoint -> num)
    (assume_normalized_kernel rescale_class_labels : bool) :
  target_alignment X Y kernel assume_normalized_kernel rescale_class_labels
  = polarity X Y kernel assume_normalized_kernel rescale_class_labels true.
Proof. unfold target_alignment. reflexivity. Qed.

(** *** Rescaling of the class labels *)

(** The count a label is divided by when the labels are rescaled. *)
Definition label_divisor (Y : list num) (y : num) : Z :=
  if eq_one y then count_nonzero_eq_one Y
  else (Z.of_nat (length Y) - count_nonzero_eq_one Y)%Z.

Lemma polarity_rescale X Y kernel a normalize :
  polarity X Y kernel a true normalize
  = rbind (square_kernel_matrix X kernel a) (fun K =>
      let _Y := map (fun y => div_count y (label_divisor Y y)) Y in
      frobenius_inner_product K (outer _Y _Y) normalize).
Proof.
  unfold polarity, label_divisor.
  destruct (square_kernel_matrix X kernel a) as [K|e]; simpl; [|reflexivity].
  do 2 f_equal; apply map_ext; intros y; destruct (eq_one y); reflexivity.
Qed.

Lemma count_nonzero_eq_one_bounds (Y : list num) :
  (0 <= count_nonzero_eq_one Y <= Z.of_nat (length Y))%Z.
Proof.
  unfold count_nonzero_eq_one.
  pose proof (length_filter (fun y => eq_one y = true) Y). lia.
Qed.

(** The rescaling divides no label by zero: a label that is 1 is divided by
    the number of such labels, which counts it, and any other label by the
    number of the other labels, which counts it. *)
Theorem polarity_rescale_divisors (X : list datapoint) (Y : list num)
    (kernel : datapoint -> datapoint -> num)
    (assume_normalized_kernel normalize : bool) :
  polarity X Y kernel assume_normalized_kernel true normalize
  = rbind (square_kernel_matrix X kernel assume_normalized_kernel) (fun K =>
      let _Y := map (fun y => div_count y (label_divisor Y y)) Y in
      frobenius_inner_product K (outer _Y _Y) normalize)
  /\ Forall (fun y => (1 <= label_divisor Y y <= Z.of_nat (length Y))%Z) Y.
Proof.
  split; [apply polarity_rescale|].
  apply List.Forall_forall. intros y Hy. apply list_elem_of_In in Hy.
  pose proof (count_nonzero_eq_one_bounds Y) as Hb.
  unfold label_divisor, count_nonzero_eq_one in *.
  destruct (eq_one y) eqn:Hone.
  - assert (Hin : y ∈ filter (fun y => eq_one y = true) Y)
      by (apply list_elem_of_filter; split; assumption).
    destruct (filter (fun y => eq_one y = true) Y) as [|z zs] eqn:Hf.
    + apply elem_of_nil in Hin. contradiction.
    + rewrite <- Hf in *. rewrite Hf at 1. simpl length. lia.
  - assert (Hlt : length (filter (fun y => eq_one y = true) Y) < length Y).
    { apply (length_filter_lt _ _ y); [assumption|]. congruence. }
    lia.
Qed.

(** With labels of one class only, all 1 or none 1, the rescaling divides
    every label by the number of datapoints. *)
Theorem polarity_rescale_one_class (X : list datapoint) (Y : list num)
    (kernel : datapoint -> datapoint -> num)
    (assume_normalized_kernel normalize : bool) :
  Forall (fun y => eq_one y = true) Y \/ Forall (fun y => eq_one y = false) Y ->
  polarity X Y kernel assume_normalized_kernel true normalize
  = rbind (square_kernel_matrix X kernel assume_normalized_kernel) (fun K =>
      let _Y := map (fun y => div_count y (Z.of_nat (length Y))) Y in
      frobenius_inner_product K (outer _Y _Y) normalize).
Proof.
  intros Hclass. rewrite polarity_rescale.
  assert (Hmap : map (fun y => div_count y (label_divisor Y y)) Y
                 = map (fun y => div_count y (Z.of_nat (length Y))) Y).
  { apply map_ext_in. intros y Hy. f_equal.
    unfold label_divisor, count_nonzero_eq_one.
    destruct Hclass as [Hall|Hnone].
    - rewrite (proj1 (List.Forall_forall _ _) Hall y Hy).
      f_equal.
      clear Hy. induction Hall as [|z zs Hz _ IH]; [reflexivity|].
      rewrite filter_cons_True by assumption. simpl. rewrite IH. reflexivity.
    - rewrite (proj1 (List.Forall_forall _ _) Hnone y Hy).
      replace (filter (fun y0 => eq_one y0 = true) Y) with (@nil num).
      + simpl. lia.
      + clear Hy. induction Hnone as [|z zs Hz _ IH]; [reflexivity|].
        rewrite filter_cons_False by congruence. exact IH. }
  rewrite Hmap. reflexivity.
Qed.

(** With as many labels that are 1 as labels that are not, the rescaling
    divides every label by that number: it is a common factor. *)
Theorem polarity_rescale_balanced (X : list datapoint) (Y : list num)
    (kernel : datapoint -> datapoint -> num)
    (assume_normalized_kernel normalize : bool) :
  (2 * count_nonzero_eq_one Y = Z.of_nat (length Y))%Z ->
  polarity X Y kernel assume_normalized_kernel true normalize
  = rbind (square_kernel_matrix X kernel assume_normalized_kernel) (fun K =>
      let _Y := map (fun y => div_count y (count_nonzero_eq_one Y)) Y in
      frobenius_inner_product K (outer _Y _Y) normalize).
Proof.
  intros Hbalanced. rewrite polarity_rescale.
  assert (Hmap : map (fun y => div_count y (label_divisor Y y)) Y
                 = map (fun y => div_count y (count_nonzero_eq_one Y)) Y).
  { apply map_ext. intros y. f_equal. unfold label_divisor.
    destruct (eq_one y); lia. }
  rewrite Hmap. reflexivity.
Qed.

(** The matrix of the labels that goes into the inner product has one row
    and one column per label. *)
Lemma outer_shape (a b : list num) :
  length (outer a b) = length a
  /\ Forall (fun row => length row = length b) (outer a b).
Proof.
  unfold outer. split; [apply length_map|].
  apply List.Forall_forall. intros row Hrow.
  apply in_map_iff in Hrow. destruct Hrow as (x & <- & _). apply length_map.
Qed.

(** *** task_model_alignment *)

(** [l[:N]]: the first [N] items, and for a negative [N] all but the last
    [-N]. *)
Definition slice_to {V} (N : Z) (l : list V) : list V :=
  if (0 <=? N)%Z then take (Z.to_nat N) l
  else take (length l - Z.to_nat (- N)) l.

(** [qml.math.dot], which may raise on shapes that do not match, and the
    division of the two tensors. *)
Variable dot : list num -> list num -> result num.
Variable div : num -> num -> num.

Definition task_model_alignment (N : Z) (task_weights kernel_evals : list num)
    : result num :=
  rbind (dot (slice_to N task_weights) (slice_to N kernel_evals))
    (fun numerator =>
  rbind (dot task_weights kernel_evals) (fun denominator =>
  Ok (div numerator denominator))).

Lemma slice_to_all {V} (N : Z) (l : list V) :
  (Z.of_nat (length l) <= N)%Z -> slice_to N l = l.
Proof.
  intros Hle. unfold slice_to.
  destruct (Z.leb_spec 0 N); [|lia].
  apply take_ge. lia.
Qed.

Lemma slice_to_negative {V} (N : Z) (l : list V) :
  (N < 0)%Z ->
  slice_to N l = slice_to (Z.max 0 (Z.of_nat (length l) + N)) l.
Proof.
  intros Hneg. unfold slice_to.
  destruct (Z.leb_spec 0 N); [lia|].
  destruct (Z.leb_spec 0 (Z.max 0 (Z.of_nat (length l) + N))); [|lia].
  f_equal. lia.
Qed.

(** With [N] at least the number of components the numerator is the
    denominator: no component is left out and the alignment is the quotient
    of the full sum by itself. [N] is not checked against the number of
    datapoints. *)
Theorem task_model_alignment_all (N : Z) (task_weights kernel_evals : list num) :
  (Z.of_nat (length task_weights) <= N)%Z ->
  (Z.of_nat (length kernel_evals) <= N)%Z ->
  task_model_alignment N task_weights kernel_evals
  = rbind (dot task_weights kernel_evals) (fun d => Ok (div d d)).
Proof.
  intros Hw Hk. unfold task_model_alignment.
  rewrite !slice_to_all by assumption.
  destruct (dot task_weights kernel_evals); reflexivity.
Qed.

(** A negative [N] is not refused: it counts from the end, so the numerator
    leaves out the last [-N] components. *)
Theorem task_model_alignment_negative (N : Z)
    (task_weights kernel_evals : list num) :
  (N < 0)%Z ->
  length task_weights = length kernel_evals ->
  task_model_alignment N task_weights kernel_evals
  = task_model_alignment (Z.max 0 (Z.of_nat (length task_weights) + N))
      task_weights kernel_evals.
Proof.
  intros Hneg Hlen. unfold task_model_alignment.
  rewrite (slice_to_negative N task_weights) by assumption.
  rewrite (slice_to_negative N kernel_evals) by assumption.
  rewrite Hlen. reflexivity.
Qed.

(** The numerator reads the first [N] components only. *)
Theorem task_model_alignment_prefix (N : nat)
    (task_weights kernel_evals rest_w rest_k : list num) :
  length task_weights = N ->
  length kernel_evals = N ->
  task_model_alignment (Z.of_nat N) (task_weights ++ rest_w)
    (kernel_evals ++ rest_k)
  = rbind (dot task_weights kernel_evals) (fun numerator =>
    rbind (dot (task_weights ++ rest_w) (kernel_evals ++ rest_k))
      (fun denominator => Ok (div numerator denominator))).
Proof.
  intros Hw Hk. unfold task_model_alignment, slice_to.
  destruct (Z.leb_spec 0 (Z.of_nat N)); [|lia].
  rewrite Nat2Z.id.
  rewrite !take_app_length' by (first [assumption | symmetry; assumption]).
  reflexivity.
Qed.

End cost_functions.

(** Labels in [Z] with exact division, a kernel matrix built entry by entry
    and the inner product without normalisation. *)
Definition demo_square_kernel_matrix (X : list Z) (kernel : Z -> Z -> Z)
    (assume_normalized_kernel : bool) : result (list (list Z)) :=
  Ok (map (fun x => map (fun y =>
        if (assume_normalized_kernel && Z.eqb x y)%bool then 1%Z
        else kernel x y) X) X).

Definition demo_frobenius (A B : list (list Z)) (normalize : bool)
    : result Z :=
  Ok (fold_right Z.add 0%Z
        (map (fun ab => fold_right Z.add 0%Z
                (map (fun xy => (fst xy * snd xy)%Z)
                     (combine (fst ab) (snd ab))))
             (combine A B))).

Example polarity_demo :
  polarity (Z.eqb 1) Z.div Z.mul demo_square_kernel_matrix demo_frobenius
    [1; 2; 3; 4]%Z [-1; -1; 1; 1]%Z (fun x y => (x * y)%Z) false false false
  = Ok 16%Z.
Proof. vm_compute. reflexivity. Qed.

(** The sum of the products of two lists of one length. *)
Definition demo_dot (a b : list Z) : result Z :=
  if Nat.eqb (length a) (length b) then
    Ok (fold_right Z.add 0%Z
          (map (fun xy => (fst xy * snd xy)%Z) (combine a b)))
  else Raise (ValueError "shapes not aligned").

Example task_model_alignment_demo :
  task_model_alignment demo_dot Z.div 2 [3; 1; 2]%Z [4; 2; 1]%Z = Ok 0%Z
  /\ task_model_alignment demo_dot Z.div 3 [3; 1; 2]%Z [4; 2; 1]%Z = Ok 1%Z
  /\ task_model_alignment demo_dot Z.div (-1) [3; 1; 2]%Z [4; 2; 1]%Z
     = Ok 0%Z.
Proof. vm_compute. repeat split. Qed.

Lemma polarity_rescale_one_class_witness :
  polarity (Z.eqb 1) Z.div Z.mul demo_square_kernel_matrix demo_frobenius
    [1; 2]%Z [-1; -1]%Z (fun x y => (x * y)%Z) false true false
  = rbind (demo_square_kernel_matrix [1; 2]%Z (fun x y => (x * y)%Z) false)
      (fun K =>
         let _Y := map (fun y => Z.div y (Z.of_nat (length [-1; -1]%Z)))
                     [-1; -1]%Z in
         demo_frobenius K (outer Z.mul _Y _Y) false).
Proof.
  apply (polarity_rescale_one_class (Z.eqb 1) Z.div Z.mul
           demo_square_kernel_matrix demo_frobenius).
  right. repeat constructor.
Defined.

Lemma polarity_rescale_balanced_witness :
  polarity (Z.eqb 1) Z.div Z.mul demo_square_kernel_matrix demo_frobenius
    [1; 2; 3; 4]%Z [-1; -1; 1; 1]%Z (fun x y => (x * y)%Z) false true false
  = rbind (demo_square_kernel_matrix [1; 2; 3; 4]%Z (fun x y => (x * y)%Z)
             false)
      (fun K =>
         let _Y := map (fun y => Z.div y 2) [-1; -1; 1; 1]%Z in
         demo_frobenius K (outer Z.mul _Y _Y) false).
Proof.
  apply (polarity_rescale_balanced (Z.eqb 1) Z.div Z.mul
           demo_square_kernel_matrix demo_frobenius
           [1; 2; 3; 4]%Z [-1; -1; 1; 1]%Z).
  reflexivity.
Defined.

Lemma task_model_alignment_all_witness :
  task_model_alignment demo_dot Z.div 7 [3; 1; 2]%Z [4; 2; 1]%Z
  = rbind (demo_dot [3; 1; 2]%Z [4; 2; 1]%Z) (fun d => Ok (Z.div d d)).
Proof.
  apply (task_model_alignment_all demo_dot Z.div 7 [3; 1; 2]%Z [4; 2; 1]%Z);
    simpl; lia.
Defined.

Lemma task_model_alignment_negative_witness :
  task_model_alignment demo_dot Z.div (-1) [3; 1; 2]%Z [4; 2; 1]%Z
  = task_model_alignment demo_dot Z.div 2 [3; 1; 2]%Z [4; 2; 1]%Z.
Proof.
  apply (task_model_alignment_negative demo_dot Z.div (-1) [3; 1; 2]%Z
           [4; 2; 1]%Z); [lia|reflexivity].
Defined.

Lemma task_model_alignment_prefix_witness :
  task_model_alignment demo_dot Z.div 2 ([3; 1] ++ [2])%Z ([4; 2] ++ [1])%Z
  = rbind (demo_dot [3; 1]%Z [4; 2]%Z) (fun numerator =>
    rbind (demo_dot ([3; 1] ++ [2])%Z ([4; 2] ++ [1])%Z)
      (fun denominator => Ok (Z.div numerator denominator))).
Proof.
  apply (task_model_alignment_prefix demo_dot Z.div 2 [3; 1]%Z [4; 2]%Z);
    reflexivity.
Defined.

End Kernels.

(** ** interfaces/batch/autograd.py *)

Module Autograd.

(** A number as the host autodiff sees it: plain, or an [ArrayBox] around
    its [_value], one box per derivative being traced. *)
Inductive value (num : Type) : Type :=
  | Plain (x : num)
  | ArrayBox (_value : value num).
Arguments Plain {num} x.
Arguments ArrayBox {num} _value.

(** [isinstance(v, ArrayBox)] *)
Definition isinstance_ArrayBox {num} (v : value num) : bool :=
  match v with Plain _ => false | ArrayBox _ => true end.

(** The number of boxes around the number. *)
Fixpoint box_depth {num} (v : value num) : nat :=
  match v with Plain _ => 0 | ArrayBox v' => S (box_depth v') end.

(** The number inside all the boxes. *)
Fixpoint payload {num} (v : value num) : num :=
  match v with Plain x => x | ArrayBox v' => payload v' end.

(** Python's [needle in hay] on strings. *)
Fixpoint contains (needle hay : string) : bool :=
  if String.prefix needle hay then true
  else match hay with
       | EmptyString => false
       | String _ hay' => contains needle hay'
       end.

(** Tapes and devices are objects: a reference stands for their identity. *)
Definition tape_ref : Type := nat.
Definition device_ref : Type := nat.

(** What the code does that a caller can observe besides the result. *)
Inductive event : Type :=
  | Enter_execute (tapes : list tape_ref) (_n : Z)
  | Call_execute_fn (tapes : list tape_ref)
  | Call_gradient_fn (tapes : list tape_ref)
  | Call_batch_vjp (tapes : list tape_ref).

(** A device call: [execute_fn] or the device's gradient method. *)
Definition is_device_call (ev : event) : bool :=
  match ev with
  | Call_execute_fn _ | Call_gradient_fn _ => true
  | Enter_execute _ _ | Call_batch_vjp _ => false
  end.

(** The nesting levels of the entries into [execute]. *)
Definition entered_levels (evs : list event) : list Z :=
  flat_map (fun ev => match ev with
                      | Enter_execute _ n => [n]
                      | _ => []
                      end) evs.

Section interface.
(** Numbers, device results, tensors, Jacobians and upstream gradients. *)
Context {num Res Tensor Jac DY : Type}.

(** The parameters every tape object holds. *)
Definition store : Type := tape_ref -> list (value num).

(** A computation reads and writes the tapes, returns or raises, and
    emits events. *)
Definition M (A : Type) : Type := store -> result A * store * list event.

Definition ret {A} (a : A) : M A := fun st => (Ok a, st, []).

Definition raise {A} (e : exn) : M A := fun st => (Raise e, st, []).

Definition bind {A B} (c : M A) (k : A -> M B) : M B := fun st =>
  match c st with
  | (Ok a, st1, evs1) =>
      match k a st1 with (r, st2, evs2) => (r, st2, evs1 ++ evs2) end
  | (Raise e, st1, evs1) => (Raise e, st1, evs1)
  end.

Definition emit (ev : event) : M unit := fun st => (Ok tt, st, [ev]).

(** A classical computation: no tape is touched and nothing is called. *)
Definition classical {A} (r : result A) : M A := fun st => (r, st, []).

(** A callable that works on the tapes. *)
Definition on_tapes {A} (f : store -> result A * store) : M A := fun st =>
  match f st with (r, st1) => (r, st1, []) end.

Definition outcome {A} (x : result A * store * list event) : result A :=
  fst (fst x).
Definition final_store {A} (x : result A * store * list event) : store :=
  snd (fst x).
Definition events {A} (x : result A * store * list event) : list event :=
  snd x.

(** [tape.get_parameters()] and [tape.set_parameters(values)] *)
Definition get_parameters (t : tape_ref) (st : store) : list (value num) :=
  st t.

Definition set_parameters (t : tape_ref) (values : list (value num))
    (st : store) : store :=
  fun t' => if Nat.eqb t' t then values else st t'.

(** Modelled from the spec: [qml.math.unwrap], which is not in
    [autograd.py]; it gives the "plain numeric values" of "symbolic/
    graph-tracking parameters". *)
Fixpoint unwrap (v : value num) : value num :=
  match v with
  | Plain x => Plain x
  | ArrayBox v' => unwrap v'
  end.

(** Modelled from the spec: the context manager [qml.tape.Unwrap], which is
    not in [autograd.py]; it "temporarily substitutes each tape's
    symbolic/graph-tracking parameters with plain numeric values (a scoped,
    reversible transform -- parameters are restored on every exit path,
    including exceptions)". Entering a tape saves its parameters and sets
    the unwrapped ones; the [with] statement runs the exit of every tape
    entered, in reverse order, whether the body returns or raises, and the
    exception of the body propagates. *)
Definition with_UnwrapTape {A} (t : tape_ref) (body : M A) : M A :=
  fun st =>
    let original := get_parameters t st in
    match body (set_parameters t (map unwrap original) st) with
    | (r, st1, evs) => (r, set_parameters t original st1, evs)
    end.

Fixpoint with_Unwrap {A} (tapes : list tape_ref) (body : M A) : M A :=
  match tapes with
  | [] => body
  | t :: tapes' => with_UnwrapTape t (with_Unwrap tapes' body)
  end.

(** Modelled from the spec: [qml.math.to_numpy] with [max_depth], which is
    not in [autograd.py]; a wrapper value "is converted to a plain numeric
    value, but only down to [nesting_level] levels of wrapping". [depth]
    counts the boxes already removed. *)
Fixpoint to_numpy_from (depth : Z) (v : value num) (max_depth : Z)
    : value num :=
  match v with
  | Plain x => Plain x
  | ArrayBox v' =>
      if (depth =? max_depth)%Z then v
      else to_numpy_from (depth + 1) v' max_depth
  end.

Definition to_numpy (v : value num) (max_depth : Z) : value num :=
  to_numpy_from 0 v max_depth.

(** [execute_fn]: from a batch to [(results, jacobians)]. *)
Definition execute_fn_t : Type :=
  list tape_ref -> store -> result (list Res * list Jac) * store.

(** [gradient_fn], whatever object the caller passes:
    - [gf_module] is the [__name__] of [inspect.getmodule(gradient_fn)], and
      [None] when [inspect.getmodule] finds no module and returns [None]
      (for [None], for a string, for a callable whose module is not in
      [sys.modules]);
    - [gf_self] is [gradient_fn.__self__] when
      [inspect.ismethod(gradient_fn)], and [None] otherwise;
    - [gf_call] is [gradient_fn(tapes)]. *)
Record gradient_fn_t : Type := {
  gf_module : option string;
  gf_self : option device_ref;
  gf_call : list tape_ref -> store -> result (list Jac) * store
}.

(** The post-processing function that [batch_vjp] returns. *)
Definition post_fn_t : Type := list Tensor -> result (list (value num)).

(** [np.tensor], [qml.gradients._vector_jacobian_products] with
    [reduction="append"] and [qml.gradients.batch_vjp] with
    [reduction="append"]: functions of other modules. [batch_vjp] creates
    the gradient tapes, so it works on the tapes. *)
Variable np_tensor : Res -> Tensor.
Variable _vector_jacobian_products :
  DY -> list Jac -> result (list (value num)).
Variable batch_vjp :
  list tape_ref -> DY -> gradient_fn_t -> store ->
  result (list tape_ref * post_fn_t) * store.

Definition call_execute_fn (execute_fn : execute_fn_t)
    (tapes : list tape_ref) : M (list Res * list Jac) :=
  bind (emit (Call_execute_fn tapes)) (fun _ => on_tapes (execute_fn tapes)).

Definition call_gradient_fn (gradient_fn : gradient_fn_t)
    (tapes : list tape_ref) : M (list Jac) :=
  bind (emit (Call_gradient_fn tapes))
    (fun _ => on_tapes (gf_call gradient_fn tapes)).

Definition call_batch_vjp (tapes : list tape_ref) (dy : DY)
    (gradient_fn : gradient_fn_t) : M (list tape_ref * post_fn_t) :=
  bind (emit (Call_batch_vjp tapes))
    (fun _ => on_tapes (batch_vjp tapes dy gradient_fn)).

(** The primitive [_execute]; [parameters], [device], [gradient_fn] and
    [_n] are not used by its body. *)
Definition _execute (parameters : list (list (value num)))
    (tapes : list tape_ref) (device : device_ref)
    (execute_fn : execute_fn_t) (gradient_fn : gradient_fn_t) (_n : Z)
    : M (list Tensor * list Jac) :=
  bind (with_Unwrap tapes (call_execute_fn execute_fn tapes))
    (fun '(res, jacs) => ret (map np_tensor res, jacs)).

(** The default of the keyword argument [_n]. *)
Definition default_n : Z := 1.

(** [execute]; the entry is recorded with its nesting level. *)
Definition execute (tapes : list tape_ref) (device : device_ref)
    (execute_fn : execute_fn_t) (gradient_fn : gradient_fn_t) (_n : Z)
    : M (list Tensor) :=
  bind (emit (Enter_execute tapes _n)) (fun _ =>
  bind (fun st => (Ok (map (fun t => get_parameters t st) tapes), st, []))
    (fun parameters =>
  bind (_execute parameters tapes device execute_fn gradient_fn _n)
    (fun ans => ret (fst ans)))).

(** A call of [execute] that leaves [_n] out. *)
Definition execute_outermost (tapes : list tape_ref) (device : device_ref)
    (execute_fn : execute_fn_t) (gradient_fn : gradient_fn_t)
    : M (list Tensor) :=
  execute tapes device execute_fn gradient_fn default_n.

(** [inspect.getmodule(gradient_fn).__name__]: the attribute access raises
    on [None]. *)
Definition getmodule_name (gradient_fn : gradient_fn_t) : result string :=
  match gf_module gradient_fn with
  | Some name => Ok name
  | None =>
      Raise (AttributeError "'NoneType' object has no attribute '__name__'")
  end.

(** ["pennylane.gradients" in inspect.getmodule(gradient_fn).__name__] *)
Definition is_gradient_transform (gradient_fn : gradient_fn_t)
    : result bool :=
  rbind (getmodule_name gradient_fn)
    (fun name => Ok (contains "pennylane.gradients" name)).

(** [inspect.ismethod(gradient_fn) and gradient_fn.__self__ is device] *)
Definition is_device_method (gradient_fn : gradient_fn_t)
    (device : device_ref) : bool :=
  match gf_self gradient_fn with
  | Some self => Nat.eqb self device
  | None => false
  end.

(** The body of [grad_fn] up to its [return]: the [vjps]. [ans] is the pair
    that [_execute] returned, [dy] the pair of upstream gradients for it. *)
Definition grad_fn_vjps (ans : list Tensor * list Jac)
    (parameters : list (list (value num))) (tapes : list tape_ref)
    (device : device_ref) (execute_fn : execute_fn_t)
    (gradient_fn : gradient_fn_t) (_n : Z) (dy : DY * DY)
    : M (list (value num)) :=
  let dy := fst dy in
  let jacs := snd ans in
  match jacs with
  | _ :: _ => classical (_vector_jacobian_products dy jacs)
  | [] =>
      bind (classical (is_gradient_transform gradient_fn)) (fun transform =>
      if transform : bool then
        bind (call_batch_vjp tapes dy gradient_fn) (fun '(vjp_tapes, fn) =>
        bind (execute vjp_tapes device execute_fn gradient_fn (_n + 1))
          (fun res => classical (fn res)))
      else if is_device_method gradient_fn device then
        bind (with_Unwrap tapes (call_gradient_fn gradient_fn tapes))
          (fun jacs => classical (_vector_jacobian_products dy jacs))
      else raise (ValueError "Unknown gradient function!!!"))
  end.

(** The list that [grad_fn] returns from [vjps]. *)
Definition normalize_vjps (_n : Z) (vjps : list (value num))
    : list (value num) :=
  map (fun v => if isinstance_ArrayBox v then to_numpy v _n else v) vjps.

Definition grad_fn (ans : list Tensor * list Jac)
    (parameters : list (list (value num))) (tapes : list tape_ref)
    (device : device_ref) (execute_fn : execute_fn_t)
    (gradient_fn : gradient_fn_t) (_n : Z) (dy : DY * DY)
    : M (list (value num)) :=
  bind (grad_fn_vjps ans parameters tapes device execute_fn gradient_fn
          _n dy)
    (fun vjps => ret (normalize_vjps _n vjps)).

(** [vjp] returns the closure [grad_fn]. *)
Definition vjp (ans : list Tensor * list Jac)
    (parameters : list (list (value num))) (tapes : list tape_ref)
    (device : device_ref) (execute_fn : execute_fn_t)
    (gradient_fn : gradient_fn_t) (_n : Z) : DY * DY -> M (list (value num)) :=
  grad_fn ans parameters tapes device execute_fn gradient_fn _n.


(** Modelled from the spec: the entry point with the [mode] selector, which
    is not in [autograd.py] (only its test [test_incorrect_mode] is at hand);
    the mode is "validated for compatibility with the chosen [gradient_fn]
    (gradient-transform functions are incompatible with forward mode -- this
    must fail fast with a descriptive error)", and the validation comes
    "before any device call". *)
Definition execute_with_mode (tapes : list tape_ref) (device : device_ref)
    (execute_fn : execute_fn_t) (gradient_fn : gradient_fn_t) (mode : string)
    : M (list Tensor) :=
  match is_gradient_transform gradient_fn with
  | Ok true =>
      if String.eqb mode "forward"
      then raise
             (ValueError
                "Gradient transforms cannot be used with mode='forward'")
      else execute_outermost tapes device execute_fn gradient_fn
  | Ok false | Raise _ =>
      execute_outermost tapes device execute_fn gradient_fn
  end.

(** Modelled from the spec: the ceiling [max_diff] on the derivative order,
    which is not in [autograd.py] (only its test [test_max_diff] is at
    hand). The exposed operation supports "an optional [max_diff] ceiling on
    derivative order"; "if the current nesting level would exceed the
    ceiling, the Gradient Rule Resolver must skip recursive tape construction
    and instead either treat the derivative as zero beyond that order or
    raise, depending on configuration". The derivative of order [k] is
    requested from the resolver at nesting level [k]; [beyond_ceiling] is
    the configuration, and without a ceiling, or within it, the resolver is
    [grad_fn]. *)
Inductive beyond_ceiling : Type :=
  | Zero_beyond
  | Raise_beyond.

Definition exceeds_ceiling (max_diff : option Z) (_n : Z) : bool :=
  match max_diff with
  | Some ceiling => (ceiling <? _n)%Z
  | None => false
  end.

(** A VJP of zeros, one for every tape of the batch. *)
Definition zero_vjps (zero : num) (tapes : list tape_ref)
    : list (value num) :=
  map (fun _ => Plain zero) tapes.

Definition grad_fn_max_diff (max_diff : option Z) (beyond : beyond_ceiling)
    (zero : num) (ans : list Tensor * list Jac)
    (parameters : list (list (value num))) (tapes : list tape_ref)
    (device : device_ref) (execute_fn : execute_fn_t)
    (gradient_fn : gradient_fn_t) (_n : Z) (dy : DY * DY)
    : M (list (value num)) :=
  if exceeds_ceiling max_diff _n then
    match beyond with
    | Zero_beyond => ret (zero_vjps zero tapes)
    | Raise_beyond =>
        raise (Exception "derivative order beyond max_diff is not supported")
    end
  else grad_fn ans parameters tapes device execute_fn gradient_fn _n dy.

(** The tapes as the body of [with qml.tape.Unwrap( *tapes)] finds them. *)
Fixpoint enter_all (tapes : list tape_ref) (st : store) : store :=
  match tapes with
  | [] => st
  | t :: tapes' =>
      enter_all tapes' (set_parameters t (map unwrap (get_parameters t st)) st)
  end.

(** The tapes after the [with] statement that was entered at [st] and whose
    body left them as [st1]. *)
Fixpoint exit_all (tapes : list tape_ref) (st st1 : store) : store :=
  match tapes with
  | [] => st1
  | t :: tapes' =>
      set_parameters t (get_parameters t st)
        (exit_all tapes'
           (set_parameters t (map unwrap (get_parameters t st)) st) st1)
  end.

(** [grad_fn] at nesting level [n] enters [execute] at level [m]. *)
Definition reenters (n m : Z) : Prop :=
  exists ans parameters tapes device execute_fn gradient_fn dy st,
    In m (entered_levels
            (events (grad_fn ans parameters tapes device execute_fn
                       gradient_fn n dy st))).

(** A call of [execute] without [_n] runs at level [n]. *)
Definition outermost_level (n : Z) : Prop :=
  exists tapes device execute_fn gradient_fn st,
    entered_levels
      (events (execute_outermost tapes device execute_fn gradient_fn st))
    = [n].

(** The nesting levels along a chain of calls of [execute]: the outermost
    call first, then each re-entry made by the [grad_fn] of the call before
    it. *)
Inductive call_chain : list Z -> Prop :=
  | chain_outermost n : outermost_level n -> call_chain [n]
  | chain_reenter ns n m :
      call_chain (ns ++ [n]) -> reenters n m -> call_chain (ns ++ [n; m]).

(** The levels [1], [2], ..., [k]. *)
Definition levels_from_one (k : nat) : list Z :=
  map (fun i => (1 + Z.of_nat i)%Z) (seq 0 k).

(** *** The [with] statement *)

Lemma with_Unwrap_run {A} (tapes : list tape_ref) (body : M A) (st : store) :
  with_Unwrap tapes body st
  = match body (enter_all tapes st) with
    | (r, st1, evs) => (r, exit_all tapes st st1, evs)
    end.
Proof.
  revert st. induction tapes as [|t tapes IH]; intros st; simpl.
  - destruct (body st) as [[r st1] evs]. reflexivity.
  - unfold with_UnwrapTape. rewrite IH.
    destruct (body _) as [[r st1] evs]. reflexivity.
Qed.

Lemma set_parameters_same t values (st : store) :
  set_parameters t values st t = values.
Proof. unfold set_parameters. rewrite Nat.eqb_refl. reflexivity. Qed.

Lemma set_parameters_other t t' values (st : store) :
  t' <> t -> set_parameters t values st t' = st t'.
Proof.
  intros Hne. unfold set_parameters.
  destruct (Nat.eqb_spec t' t); [contradiction|reflexivity].
Qed.

(** Every tape of the batch has its parameters of before the [with]
    statement again, whatever the body did to them; this holds too when a
    tape is in the batch twice. *)
Lemma exit_all_restores (tapes : list tape_ref) :
  forall (st st1 : store) t, In t tapes -> exit_all tapes st st1 t = st t.
Proof.
  induction tapes as [|a tapes IH]; intros st st1 t Hin; simpl in *.
  - contradiction.
  - destruct (Nat.eq_dec t a) as [->|Hne].
    + apply set_parameters_same.
    + rewrite set_parameters_other by assumption.
      destruct Hin as [->|Hin]; [contradiction|].
      rewrite IH by assumption. apply set_parameters_other. assumption.
Qed.

(** The other tapes are as the body left them. *)
Lemma exit_all_other (tapes : list tape_ref) :
  forall (st st1 : store) t, ~ In t tapes -> exit_all tapes st st1 t = st1 t.
Proof.
  induction tapes as [|a tapes IH]; intros st st1 t Hnin; simpl in *.
  - reflexivity.
  - rewrite set_parameters_other by (intros ->; tauto). apply IH. tauto.
Qed.

(** In the body the tapes of the batch hold plain numbers. *)
Lemma unwrap_plain (v : value num) : isinstance_ArrayBox (unwrap v) = false.
Proof. induction v; simpl; auto. Qed.

Lemma unwrap_idempotent (v : value num) : unwrap (unwrap v) = unwrap v.
Proof. induction v; simpl; auto. Qed.

Lemma enter_all_lookup (tapes : list tape_ref) :
  forall (st : store) t,
    enter_all tapes st t
    = if in_dec Nat.eq_dec t tapes then map unwrap (st t) else st t.
Proof.
  induction tapes as [|a tapes IH]; intros st t; simpl.
  - reflexivity.
  - rewrite IH. unfold get_parameters.
    destruct (Nat.eq_dec a t) as [->|Hne].
    + rewrite set_parameters_same.
      destruct (in_dec Nat.eq_dec t tapes); [|reflexivity].
      rewrite map_map. apply map_ext. intros v. apply unwrap_idempotent.
    + rewrite set_parameters_other by congruence.
      destruct (in_dec Nat.eq_dec t tapes); reflexivity.
Qed.

Lemma enter_all_unwrapped (tapes : list tape_ref) (st : store) t v :
  In t tapes -> In v (enter_all tapes st t) -> isinstance_ArrayBox v = false.
Proof.
  intros Hin Hv. rewrite enter_all_lookup in Hv.
  destruct (in_dec Nat.eq_dec t tapes); [|contradiction].
  apply in_map_iff in Hv. destruct Hv as (w & <- & _). apply unwrap_plain.
Qed.

(** *** The forward pass *)

Lemma _execute_run parameters tapes device execute_fn gradient_fn _n st :
  _execute parameters tapes device execute_fn gradient_fn _n st
  = match execute_fn tapes (enter_all tapes st) with
    | (Ok (res, jacs), st1) =>
        (Ok (map np_tensor res, jacs), exit_all tapes st st1,
         [Call_execute_fn tapes])
    | (Raise e, st1) =>
        (Raise e, exit_all tapes st st1, [Call_execute_fn tapes])
    end.
Proof.
  unfold _execute, bind. rewrite with_Unwrap_run.
  unfold call_execute_fn, bind, emit, on_tapes, ret.
  destruct (execute_fn tapes (enter_all tapes st)) as [[[res jacs]|e] st1];
    reflexivity.
Qed.

Lemma execute_run tapes device execute_fn gradient_fn _n st :
  execute tapes device execute_fn gradient_fn _n st
  = match execute_fn tapes (enter_all tapes st) with
    | (Ok (res, jacs), st1) =>
        (Ok (map np_tensor res), exit_all tapes st st1,
         [Enter_execute tapes _n; Call_execute_fn tapes])
    | (Raise e, st1) =>
        (Raise e, exit_all tapes st st1,
         [Enter_execute tapes _n; Call_execute_fn tapes])
    end.
Proof.
  unfold execute, bind at 1 2 3, emit. rewrite _execute_run.
  destruct (execute_fn tapes (enter_all tapes st)) as [[[res jacs]|e] st1];
    reflexivity.
Qed.

Lemma execute_events tapes device execute_fn gradient_fn _n st :
  events (execute tapes device execute_fn gradient_fn _n st)
  = [Enter_execute tapes _n; Call_execute_fn tapes].
Proof.
  rewrite execute_run.
  destruct (execute_fn tapes (enter_all tapes st)) as [[[res jacs]|e] st1];
    reflexivity.
Qed.

(** *** The backward pass *)

Lemma bind_classical {A B} (r : result A) (k : A -> M B) (st : store) :
  bind (classical r) k st
  = match r with
    | Ok a => k a st
    | Raise e => (Raise e, st, [])
    end.
Proof.
  unfold bind, classical. destruct r as [a|e]; [|reflexivity].
  destruct (k a st) as [[r st1] evs]. reflexivity.
Qed.

(** Without stored Jacobians the module test comes first; it raises when
    [inspect.getmodule] found no module. *)
Lemma grad_fn_vjps_no_jacobians ans parameters tapes device execute_fn
    gradient_fn _n dy st :
  snd ans = [] ->
  grad_fn_vjps ans parameters tapes device execute_fn gradient_fn _n dy st
  = match is_gradient_transform gradient_fn with
    | Ok true =>
        bind (call_batch_vjp tapes (fst dy) gradient_fn)
          (fun '(vjp_tapes, fn) =>
             bind (execute vjp_tapes device execute_fn gradient_fn (_n + 1))
               (fun res => classical (fn res))) st
    | Ok false =>
        if is_device_method gradient_fn device then
          bind (with_Unwrap tapes (call_gradient_fn gradient_fn tapes))
            (fun jacs => classical (_vector_jacobian_products (fst dy) jacs))
            st
        else (Raise (ValueError "Unknown gradient function!!!"), st, [])
    | Raise e => (Raise e, st, [])
    end.
Proof.
  intros Hjacs. unfold grad_fn_vjps. rewrite Hjacs, bind_classical.
  destruct (is_gradient_transform gradient_fn) as [[|]|e]; try reflexivity.
  destruct (is_device_method gradient_fn device); reflexivity.
Qed.

Lemma device_method_run ans parameters tapes device execute_fn gradient_fn
    _n dy st :
  snd ans = [] ->
  is_gradient_transform gradient_fn = Ok false ->
  is_device_method gradient_fn device = true ->
  grad_fn_vjps ans parameters tapes device execute_fn gradient_fn _n dy st
  = match gf_call gradient_fn tapes (enter_all tapes st) with
    | (r, st1) =>
        (rbind r (_vector_jacobian_products (fst dy)),
         exit_all tapes st st1, [Call_gradient_fn tapes])
    end.
Proof.
  intros Hjacs Htransform Hmethod.
  rewrite grad_fn_vjps_no_jacobians, Htransform, Hmethod by assumption.
  unfold bind. rewrite with_Unwrap_run.
  unfold call_gradient_fn, bind, emit, on_tapes, classical.
  destruct (gf_call gradient_fn tapes (enter_all tapes st)) as [[jacs|e] st1];
    reflexivity.
Qed.

Lemma transform_run ans parameters tapes device execute_fn gradient_fn
    _n dy st :
  snd ans = [] ->
  is_gradient_transform gradient_fn = Ok true ->
  grad_fn_vjps ans parameters tapes device execute_fn gradient_fn _n dy st
  = match batch_vjp tapes (fst dy) gradient_fn st with
    | (Ok (vjp_tapes, fn), st1) =>
        match execute vjp_tapes device execute_fn gradient_fn (_n + 1) st1
        with
        | (r, st2, evs) => (rbind r fn, st2, Call_batch_vjp tapes :: evs)
        end
    | (Raise e, st1) => (Raise e, st1, [Call_batch_vjp tapes])
    end.
Proof.
  intros Hjacs Htransform.
  rewrite grad_fn_vjps_no_jacobians, Htransform by assumption.
  unfold bind at 1, call_batch_vjp, bind at 1, emit, on_tapes.
  destruct (batch_vjp tapes (fst dy) gradient_fn st)
    as [[[vjp_tapes fn]|e] st1]; [|reflexivity].
  simpl. unfold bind, classical.
  destruct (execute vjp_tapes device execute_fn gradient_fn (_n + 1) st1)
    as [[[res|e] st2] evs]; simpl; [|reflexivity].
  rewrite app_nil_r. reflexivity.
Qed.

Lemma grad_fn_events ans parameters tapes device execute_fn gradient_fn
    _n dy st :
  events (grad_fn ans parameters tapes device execute_fn gradient_fn _n dy st)
  = events (grad_fn_vjps ans parameters tapes device execute_fn gradient_fn
              _n dy st).
Proof.
  unfold grad_fn, bind, ret.
  destruct (grad_fn_vjps _ _ _ _ _ _ _ _ _) as [[[vjps|e] st1] evs]; simpl;
    [apply app_nil_r|reflexivity].
Qed.

Lemma grad_fn_final_store ans parameters tapes device execute_fn gradient_fn
    _n dy st :
  final_store
    (grad_fn ans parameters tapes device execute_fn gradient_fn _n dy st)
  = final_store
      (grad_fn_vjps ans parameters tapes device execute_fn gradient_fn
         _n dy st).
Proof.
  unfold grad_fn, bind, ret.
  destruct (grad_fn_vjps _ _ _ _ _ _ _ _ _) as [[[vjps|e] st1] evs];
    reflexivity.
Qed.

Lemma grad_fn_outcome ans parameters tapes device execute_fn gradient_fn
    _n dy st :
  outcome (grad_fn ans parameters tapes device execute_fn gradient_fn _n dy st)
  = rbind (outcome (grad_fn_vjps ans parameters tapes device execute_fn
                      gradient_fn _n dy st))
      (fun vjps => Ok (normalize_vjps _n vjps)).
Proof.
  unfold grad_fn, bind, ret.
  destruct (grad_fn_vjps _ _ _ _ _ _ _ _ _) as [[[vjps|e] st1] evs];
    reflexivity.
Qed.

(** On the device-method path [gradient_fn] is called once, on tapes that
    hold plain numbers, and [execute] is not entered: the path gives the
    host nothing to differentiate further. *)
Lemma device_method_no_reentry ans parameters tapes device execute_fn
    gradient_fn _n dy st :
  snd ans = [] ->
  is_gradient_transform gradient_fn = Ok false ->
  is_device_method gradient_fn device = true ->
  events (grad_fn ans parameters tapes device execute_fn gradient_fn _n dy st)
  = [Call_gradient_fn tapes]
  /\ forall t v, In t tapes -> In v (enter_all tapes st t) ->
       isinstance_ArrayBox v = false.
Proof.
  intros Hjacs Htransform Hmethod. split.
  - rewrite grad_fn_events, device_method_run by assumption.
    destruct (gf_call gradient_fn tapes (enter_all tapes st)) as [r st1].
    reflexivity.
  - intros t v. apply enter_all_unwrapped.
Qed.

(** The levels at which a [grad_fn] of level [_n] enters [execute]. *)
Lemma grad_fn_entered_levels ans parameters tapes device execute_fn
    gradient_fn _n dy st :
  entered_levels
    (events (grad_fn ans parameters tapes device execute_fn gradient_fn
               _n dy st)) = []
  \/ entered_levels
       (events (grad_fn ans parameters tapes device execute_fn gradient_fn
                  _n dy st)) = [(_n + 1)%Z].
Proof.
  rewrite grad_fn_events.
  destruct (snd ans) as [|jac jacs] eqn:Hjacs.
  - destruct (is_gradient_transform gradient_fn) as [[|]|e'] eqn:Htransform.
    + rewrite transform_run by assumption.
      destruct (batch_vjp tapes (fst dy) gradient_fn st)
        as [[[vjp_tapes fn]|e] st1]; [|left; reflexivity].
      pose proof (execute_events vjp_tapes device execute_fn gradient_fn
                    (_n + 1) st1) as Hev.
      destruct (execute vjp_tapes device execute_fn gradient_fn (_n + 1) st1)
        as [[r st2] evs].
      unfold events in *. simpl in *. subst evs. right. reflexivity.
    + destruct (is_device_method gradient_fn device) eqn:Hmethod.
      * rewrite device_method_run by assumption.
        destruct (gf_call gradient_fn tapes (enter_all tapes st)) as [r st1].
        left. reflexivity.
      * rewrite grad_fn_vjps_no_jacobians, Htransform, Hmethod by assumption.
        left. reflexivity.
    + rewrite grad_fn_vjps_no_jacobians, Htransform by assumption.
      left. reflexivity.
  - unfold grad_fn_vjps. rewrite Hjacs. left. reflexivity.
Qed.


(** C2. The [Unwrap] scope around the device call is exception-safe: after
    [_execute] (and so after [execute]), and after [grad_fn] on the
    device-method path, every tape of the batch holds the parameters it held
    before, whether the call returned or raised; an exception of [execute_fn]
    or [gradient_fn] propagates. *)
Theorem unwrap_scope_restores_parameters :
  (forall parameters tapes device execute_fn gradient_fn _n (st : store) t,
     In t tapes ->
     get_parameters t
       (final_store
          (_execute parameters tapes device execute_fn gradient_fn _n st))
     = get_parameters t st)
  /\ (forall parameters tapes device execute_fn gradient_fn _n (st : store)
        e st1,
      execute_fn tapes (enter_all tapes st) = (Raise e, st1) ->
      outcome (_execute parameters tapes device execute_fn gradient_fn _n st)
      = Raise e)
  /\ (forall ans parameters tapes device execute_fn gradient_fn _n dy
        (st : store) t,
      snd ans = [] -> is_gradient_transform gradient_fn = Ok false ->
      is_device_method gradient_fn device = true ->
      In t tapes ->
      get_parameters t
        (final_store
           (grad_fn ans parameters tapes device execute_fn gradient_fn
              _n dy st))
      = get_parameters t st)
  /\ (forall ans parameters tapes device execute_fn gradient_fn _n dy
        (st : store) e st1,
      snd ans = [] -> is_gradient_transform gradient_fn = Ok false ->
      is_device_method gradient_fn device = true ->
      gf_call gradient_fn tapes (enter_all tapes st) = (Raise e, st1) ->
      outcome
        (grad_fn ans parameters tapes device execute_fn gradient_fn _n dy st)
      = Raise e)
  /\ (forall tapes device execute_fn gradient_fn _n (st : store) t,
      In t tapes ->
      get_parameters t
        (final_store (execute tapes device execute_fn gradient_fn _n st))
      = get_parameters t st).
Proof.
  repeat split.
  - intros parameters tapes device execute_fn gradient_fn _n st t Hin.
    rewrite _execute_run. unfold get_parameters.
    destruct (execute_fn tapes (enter_all tapes st))
      as [[[res jacs]|e] st1]; apply exit_all_restores; assumption.
  - intros parameters tapes device execute_fn gradient_fn _n st e st1 Hraise.
    rewrite _execute_run, Hraise. reflexivity.
  - intros ans parameters tapes device execute_fn gradient_fn _n dy st t
      Hjacs Htransform Hmethod Hin.
    rewrite grad_fn_final_store, device_method_run by assumption.
    unfold get_parameters.
    destruct (gf_call gradient_fn tapes (enter_all tapes st)) as [r st1].
    apply exit_all_restores. assumption.
  - intros ans parameters tapes device execute_fn gradient_fn _n dy st e st1
      Hjacs Htransform Hmethod Hraise.
    rewrite grad_fn_outcome, device_method_run, Hraise by assumption.
    reflexivity.
  - intros tapes device execute_fn gradient_fn _n st t Hin.
    rewrite execute_run. unfold get_parameters.
    destruct (execute_fn tapes (enter_all tapes st))
      as [[[res jacs]|e] st1]; apply exit_all_restores; assumption.
Qed.

Lemma levels_from_one_S k :
  levels_from_one (S k) = levels_from_one k ++ [(1 + Z.of_nat k)%Z].
Proof. unfold levels_from_one. rewrite seq_S, map_app. reflexivity. Qed.

Lemma outermost_level_one n : outermost_level n -> n = 1%Z.
Proof.
  intros (tapes & device & execute_fn & gradient_fn & st & Hev).
  unfold execute_outermost in Hev. rewrite execute_events in Hev.
  simpl in Hev. unfold default_n in Hev. congruence.
Qed.

Lemma reenters_succ n m : reenters n m -> m = (n + 1)%Z.
Proof.
  intros (ans & parameters & tapes & device & execute_fn & gradient_fn & dy
          & st & Hin).
  destruct (grad_fn_entered_levels ans parameters tapes device execute_fn
              gradient_fn n dy st) as [Hev|Hev]; rewrite Hev in Hin.
  - destruct Hin.
  - destruct Hin as [<-|[]]. reflexivity.
Qed.

Lemma call_chain_levels l :
  call_chain l -> l = levels_from_one (length l).
Proof.
  induction 1 as [n Hn|ns n m _ IH Hre].
  - apply outermost_level_one in Hn. subst n. reflexivity.
  - apply reenters_succ in Hre. subst m.
    rewrite length_app in IH. simpl in IH.
    replace (length ns + 1) with (S (length ns)) in IH by lia.
    rewrite levels_from_one_S in IH.
    apply app_inj_tail in IH. destruct IH as [Hns Hn].
    rewrite length_app. simpl.
    replace (length ns + 2) with (S (S (length ns))) by lia.
    rewrite !levels_from_one_S, <- Hns, <- app_assoc. simpl.
    rewrite Hn. do 3 f_equal. lia.
Qed.

Lemma levels_from_one_lookup k i m :
  levels_from_one k !! i = Some m -> m = (1 + Z.of_nat i)%Z.
Proof.
  unfold levels_from_one. rewrite list_lookup_fmap.
  destruct (seq 0 k !! i) as [j|] eqn:Hj; simpl; [|discriminate].
  apply lookup_seq in Hj. destruct Hj as [-> _].
  intros [= <-]. reflexivity.
Qed.

(** C3. The nesting level is 1 on a call of [execute] that leaves [_n] out;
    a [grad_fn] of level [n] enters [execute] at level [n + 1] and at no
    other, and does so with a gradient transform; so the [k]-th call of a
    chain (from 0) runs at level [1 + k]: the levels are positive and never
    go down. *)
Theorem nesting_level_invariant :
  (forall tapes device execute_fn gradient_fn (st : store),
     entered_levels
       (events (execute_outermost tapes device execute_fn gradient_fn st))
     = [1%Z])
  /\ (forall n m, reenters n m -> m = (n + 1)%Z)
  /\ (forall ans parameters tapes device execute_fn gradient_fn _n dy
        (st : store) vjp_tapes fn st1,
      snd ans = [] -> is_gradient_transform gradient_fn = Ok true ->
      batch_vjp tapes (fst dy) gradient_fn st = (Ok (vjp_tapes, fn), st1) ->
      entered_levels
        (events (grad_fn ans parameters tapes device execute_fn gradient_fn
                   _n dy st))
      = [(_n + 1)%Z])
  /\ (forall ns, call_chain ns ->
      forall k m, ns !! k = Some m -> m = (1 + Z.of_nat k)%Z)
  /\ (forall ns, call_chain ns ->
      forall i j a b, i <= j -> ns !! i = Some a -> ns !! j = Some b ->
        (1 <= a <= b)%Z).
Proof.
  split; [|split; [|split; [|split]]].
  - intros. unfold execute_outermost. rewrite execute_events. reflexivity.
  - apply reenters_succ.
  - intros ans parameters tapes device execute_fn gradient_fn _n dy st
      vjp_tapes fn st1 Hjacs Htransform Hvjp.
    rewrite grad_fn_events, transform_run, Hvjp by assumption.
    pose proof (execute_events vjp_tapes device execute_fn gradient_fn
                  (_n + 1) st1) as Hev.
    destruct (execute vjp_tapes device execute_fn gradient_fn (_n + 1) st1)
      as [[r st2] evs].
    unfold events in *. simpl in *. subst evs. reflexivity.
  - intros ns Hchain k m Hk. apply call_chain_levels in Hchain.
    rewrite Hchain in Hk. eapply levels_from_one_lookup, Hk.
  - intros ns Hchain i j a b Hij Hi Hj. apply call_chain_levels in Hchain.
    rewrite Hchain in Hi, Hj.
    apply levels_from_one_lookup in Hi, Hj. lia.
Qed.

(** *** Output normalisation *)

Lemma payload_to_numpy_from (v : value num) :
  forall depth max_depth,
    payload (to_numpy_from depth v max_depth) = payload v.
Proof.
  induction v as [x|v IH]; intros depth max_depth; simpl.
  - reflexivity.
  - destruct (depth =? max_depth)%Z; [reflexivity|apply IH].
Qed.

(** Boxes are removed until [max_depth] of them are gone. *)
Lemma box_depth_to_numpy_from (v : value num) :
  forall depth max_depth, (depth <= max_depth)%Z ->
    box_depth (to_numpy_from depth v max_depth)
    = box_depth v - Z.to_nat (max_depth - depth).
Proof.
  induction v as [x|v IH]; intros depth max_depth Hle; simpl to_numpy_from.
  - reflexivity.
  - destruct (Z.eqb_spec depth max_depth) as [->|Hne].
    + rewrite Z.sub_diag. simpl. reflexivity.
    + rewrite IH by lia. simpl box_depth.
      replace (Z.to_nat (max_depth - depth))
        with (S (Z.to_nat (max_depth - (depth + 1)))) by lia.
      reflexivity.
Qed.

Lemma box_depth_to_numpy (v : value num) (max_depth : Z) :
  (0 <= max_depth)%Z ->
  box_depth (to_numpy v max_depth) = box_depth v - Z.to_nat max_depth.
Proof.
  intros Hle. unfold to_numpy. rewrite box_depth_to_numpy_from by assumption.
  rewrite Z.sub_0_r. reflexivity.
Qed.

(** C4. Of the VJPs that [grad_fn] returns, a component that is not an
    [ArrayBox] is the component of [vjps] unchanged; a component that is an
    [ArrayBox] is [to_numpy] of it with [max_depth] the nesting level [_n]:
    the same number with [_n] boxes fewer, so the boxes beyond the level stay
    on. *)
Theorem grad_fn_output_normalization
    (ans : list Tensor * list Jac) (parameters : list (list (value num)))
    (tapes : list tape_ref) (device : device_ref)
    (execute_fn : execute_fn_t) (gradient_fn : gradient_fn_t) (_n : Z)
    (dy : DY * DY) (st : store) (out : list (value num)) :
  outcome (grad_fn ans parameters tapes device execute_fn gradient_fn _n dy st)
  = Ok out ->
  exists vjps,
    outcome (grad_fn_vjps ans parameters tapes device execute_fn gradient_fn
               _n dy st) = Ok vjps
    /\ length out = length vjps
    /\ forall i v, vjps !! i = Some v ->
         exists o, out !! i = Some o
           /\ (isinstance_ArrayBox v = false -> o = v)
           /\ (isinstance_ArrayBox v = true ->
                 o = to_numpy v _n
                 /\ payload o = payload v
                 /\ ((0 <= _n)%Z ->
                       box_depth o = box_depth v - Z.to_nat _n)).
Proof.
  rewrite grad_fn_outcome.
  destruct (outcome (grad_fn_vjps _ _ _ _ _ _ _ _ _)) as [vjps|e];
    simpl; [|discriminate].
  intros [= <-]. exists vjps. split; [reflexivity|]. split.
  - unfold normalize_vjps. apply length_map.
  - intros i v Hv. unfold normalize_vjps.
    rewrite list_lookup_fmap, Hv. simpl.
    eexists. split; [reflexivity|]. split.
    + intros ->. reflexivity.
    + intros ->. split; [reflexivity|]. split.
      * apply payload_to_numpy_from.
      * apply box_depth_to_numpy.
Qed.

(** C5, as the code has it. With a [gradient_fn] whose module
    [inspect.getmodule] finds and that is neither a gradient transform nor a
    method of the device, the forward pass raises no configuration error:
    [execute] does not look at [gradient_fn] and calls [execute_fn]. The
    error comes from the gradient rule on the backward pass, when the
    Jacobian Set is empty: [ValueError] at once, with no tape touched and
    nothing called. *)
Theorem unknown_gradient_fn_raises_on_backward
    (ans : list Tensor * list Jac) (parameters : list (list (value num)))
    (tapes : list tape_ref) (device : device_ref)
    (execute_fn : execute_fn_t) (gradient_fn : gradient_fn_t) (_n : Z)
    (dy : DY * DY) (st : store) :
  is_gradient_transform gradient_fn = Ok false ->
  is_device_method gradient_fn device = false ->
  (snd ans = [] ->
     grad_fn ans parameters tapes device execute_fn gradient_fn _n dy st
     = (Raise (ValueError "Unknown gradient function!!!"), st, []))
  /\ (forall other_fn : gradient_fn_t,
        execute tapes device execute_fn gradient_fn _n st
        = execute tapes device execute_fn other_fn _n st)
  /\ events (execute tapes device execute_fn gradient_fn _n st)
     = [Enter_execute tapes _n; Call_execute_fn tapes].
Proof.
  intros Htransform Hmethod. split; [|split].
  - intros Hjacs. unfold grad_fn, bind.
    rewrite grad_fn_vjps_no_jacobians, Htransform, Hmethod by assumption.
    reflexivity.
  - intros other_fn. rewrite !execute_run. reflexivity.
  - apply execute_events.
Qed.

(** The resolver of [autograd.py] by itself, at any nesting level [_n]: with
    an empty Jacobian Set and a gradient transform it has [batch_vjp] build
    the gradient tapes, enters [execute] on them at level [_n + 1], which
    calls [execute_fn], and returns what the post-processing function makes
    of the results. *)
Lemma transform_recursion_at_every_level
    (ans : list Tensor * list Jac) (parameters : list (list (value num)))
    (tapes : list tape_ref) (device : device_ref)
    (execute_fn : execute_fn_t) (gradient_fn : gradient_fn_t) (_n : Z)
    (dy : DY * DY) (st : store) (vjp_tapes : list tape_ref) (fn : post_fn_t)
    (st1 : store) :
  snd ans = [] ->
  is_gradient_transform gradient_fn = Ok true ->
  batch_vjp tapes (fst dy) gradient_fn st = (Ok (vjp_tapes, fn), st1) ->
  events (grad_fn ans parameters tapes device execute_fn gradient_fn _n dy st)
  = [Call_batch_vjp tapes; Enter_execute vjp_tapes (_n + 1);
     Call_execute_fn vjp_tapes]
  /\ outcome
       (grad_fn ans parameters tapes device execute_fn gradient_fn _n dy st)
     = rbind (outcome (execute vjp_tapes device execute_fn gradient_fn
                         (_n + 1) st1))
         (fun res => rbind (fn res)
                       (fun vjps => Ok (normalize_vjps _n vjps))).
Proof.
  intros Hjacs Htransform Hvjp. split.
  - rewrite grad_fn_events, transform_run, Hvjp by assumption.
    pose proof (execute_events vjp_tapes device execute_fn gradient_fn
                  (_n + 1) st1) as Hev.
    destruct (execute vjp_tapes device execute_fn gradient_fn (_n + 1) st1)
      as [[r st2] evs].
    unfold events in *. simpl in *. subst evs. reflexivity.
  - rewrite grad_fn_outcome, transform_run, Hvjp by assumption.
    destruct (execute vjp_tapes device execute_fn gradient_fn (_n + 1) st1)
      as [[[res|e] st2] evs]; reflexivity.
Qed.

(** C6. With a ceiling [max_diff], a VJP request at a nesting level above
    the ceiling, which is the request of a derivative of an order that
    exceeds it, builds no gradient tapes and does not enter [execute]:
    nothing is called and no tape is touched. The result is the VJP of zeros
    or the error, as configured; it is the same whatever the upstream
    gradient, the forward result, [execute_fn] and [gradient_fn] are.
    Without a ceiling, or at a level within it, the resolver is [grad_fn]. *)
Theorem max_diff_ceiling_blocks_higher_orders
    (max_diff : option Z) (beyond : beyond_ceiling) (zero : num)
    (ans : list Tensor * list Jac) (parameters : list (list (value num)))
    (tapes : list tape_ref) (device : device_ref)
    (execute_fn : execute_fn_t) (gradient_fn : gradient_fn_t) (_n : Z)
    (dy : DY * DY) (st : store) :
  (forall ceiling, max_diff = Some ceiling -> (ceiling < _n)%Z ->
     grad_fn_max_diff max_diff beyond zero ans parameters tapes device
       execute_fn gradient_fn _n dy st
     = (match beyond with
        | Zero_beyond => Ok (zero_vjps zero tapes)
        | Raise_beyond =>
            Raise (Exception
                     "derivative order beyond max_diff is not supported")
        end, st, [])
     /\ forall ans' parameters' execute_fn' gradient_fn' dy',
          grad_fn_max_diff max_diff beyond zero ans' parameters' tapes device
            execute_fn' gradient_fn' _n dy' st
          = grad_fn_max_diff max_diff beyond zero ans parameters tapes device
              execute_fn gradient_fn _n dy st)
  /\ (max_diff = None
        \/ (exists ceiling, max_diff = Some ceiling /\ (_n <= ceiling)%Z) ->
      grad_fn_max_diff max_diff beyond zero ans parameters tapes device
        execute_fn gradient_fn _n dy st
      = grad_fn ans parameters tapes device execute_fn gradient_fn _n dy st).
Proof.
  split.
  - intros ceiling -> Hlt. unfold grad_fn_max_diff, exceeds_ceiling.
    rewrite (proj2 (Z.ltb_lt ceiling _n) Hlt).
    split; [destruct beyond; reflexivity|reflexivity].
  - intros [->|(ceiling & -> & Hle)]; unfold grad_fn_max_diff, exceeds_ceiling.
    + reflexivity.
    + rewrite (proj2 (Z.ltb_ge ceiling _n) Hle). reflexivity.
Qed.

(** C8. With [mode="forward"] and a [gradient_fn] of the gradient-transform
    namespace the entry point raises its [ValueError] at once: no tape is
    touched, [execute] is not entered and the device is not called. *)
Theorem forward_mode_rejects_gradient_transform
    (tapes : list tape_ref) (device : device_ref)
    (execute_fn : execute_fn_t) (gradient_fn : gradient_fn_t) (st : store) :
  is_gradient_transform gradient_fn = Ok true ->
  execute_with_mode tapes device execute_fn gradient_fn "forward" st
  = (Raise (ValueError
              "Gradient transforms cannot be used with mode='forward'"),
     st, []).
Proof.
  intros Htransform. unfold execute_with_mode. rewrite Htransform.
  reflexivity.
Qed.

(** *** The test for a gradient transform *)

Lemma prefix_append (s1 s2 : string) :
  String.prefix s1 s2 = true <-> exists post, s2 = String.append s1 post.
Proof.
  revert s2. induction s1 as [|a s1 IH]; intros s2.
  - split; [intros _; exists s2; reflexivity|].
    intros _. destruct s2; reflexivity.
  - destruct s2 as [|b s2]; simpl.
    + split; [discriminate|]. intros (post & Hpost). discriminate.
    + destruct (ascii_dec a b) as [->|Hne].
      * rewrite IH. split.
        -- intros (post & ->). exists post. reflexivity.
        -- intros (post & [= ->]). exists post. reflexivity.
      * split; [discriminate|]. intros (post & [= Hab _]). congruence.
Qed.

Lemma contains_unfold (needle hay : string) :
  contains needle hay
  = if String.prefix needle hay then true
    else match hay with
         | EmptyString => false
         | String _ hay' => contains needle hay'
         end.
Proof. destruct hay; reflexivity. Qed.

(** [contains needle hay] is Python's [needle in hay]: [needle] occurs
    somewhere in [hay]. *)
Lemma contains_substring (needle hay : string) :
  contains needle hay = true
  <-> exists pre post,
        hay = String.append pre (String.append needle post).
Proof.
  split.
  - induction hay as [|c hay IH]; rewrite contains_unfold.
    + destruct (String.prefix needle "") eqn:Hp; [|discriminate].
      intros _. apply prefix_append in Hp. destruct Hp as (post & Hpost).
      exists "", post. exact Hpost.
    + destruct (String.prefix needle (String c hay)) eqn:Hp.
      * intros _. apply prefix_append in Hp. destruct Hp as (post & Hpost).
        exists "", post. exact Hpost.
      * intros Hc. destruct (IH Hc) as (pre & post & ->).
        exists (String c pre), post. reflexivity.
  - intros (pre & post & ->). induction pre as [|c pre IH].
    + rewrite contains_unfold.
      rewrite (proj2 (prefix_append needle _)); [reflexivity|].
      exists post. reflexivity.
    + rewrite contains_unfold. simpl String.append.
      destruct (String.prefix needle _); [reflexivity|exact IH].
Qed.

(** A [gradient_fn] is taken for a gradient transform exactly when the name
    of its module has ["pennylane.gradients"] somewhere in it, not only at
    its start. *)
Theorem is_gradient_transform_substring (gradient_fn : gradient_fn_t) :
  is_gradient_transform gradient_fn = Ok true
  <-> exists pre post,
        gf_module gradient_fn
        = Some (String.append pre (String.append "pennylane.gradients" post)).
Proof.
  unfold is_gradient_transform, getmodule_name.
  destruct (gf_module gradient_fn) as [name|]; simpl.
  - split.
    + intros [= Hc]. apply contains_substring in Hc.
      destruct Hc as (pre & post & ->). eauto.
    + intros (pre & post & [= ->]). f_equal.
      apply contains_substring. eauto.
  - split; [discriminate|]. intros (pre & post & Hnone). discriminate.
Qed.

(** *** Calls of the device *)

(** The number of device calls among the events. *)
Definition device_calls (evs : list event) : nat :=
  length (filter (fun ev => is_device_call ev = true) evs).

(** A forward execution calls the device once; a VJP request calls it at
    most once, and not at all when the forward pass stored Jacobians. *)
Theorem device_calls_per_pass
    (ans : list Tensor * list Jac) (parameters : list (list (value num)))
    (tapes : list tape_ref) (device : device_ref)
    (execute_fn : execute_fn_t) (gradient_fn : gradient_fn_t) (_n : Z)
    (dy : DY * DY) (st : store) :
  device_calls (events (execute tapes device execute_fn gradient_fn _n st)) = 1
  /\ device_calls
       (events (grad_fn ans parameters tapes device execute_fn gradient_fn
                  _n dy st)) <= 1
  /\ (snd ans <> [] ->
      device_calls
        (events (grad_fn ans parameters tapes device execute_fn gradient_fn
                   _n dy st)) = 0).
Proof.
  split; [|split].
  - rewrite execute_events. reflexivity.
  - rewrite grad_fn_events.
    destruct (snd ans) as [|jac jacs] eqn:Hjacs.
    + destruct (is_gradient_transform gradient_fn) as [[|]|e'] eqn:Htransform.
      * rewrite transform_run by assumption.
        destruct (batch_vjp tapes (fst dy) gradient_fn st)
          as [[[vjp_tapes fn]|e] st1]; [|simpl; unfold device_calls; simpl; lia].
        pose proof (execute_events vjp_tapes device execute_fn gradient_fn
                      (_n + 1) st1) as Hev.
        destruct (execute vjp_tapes device execute_fn gradient_fn (_n + 1)
                    st1) as [[r st2] evs].
        unfold events in *. simpl in *. subst evs. reflexivity.
      * destruct (is_device_method gradient_fn device) eqn:Hmethod.
        -- rewrite device_method_run by assumption.
           destruct (gf_call gradient_fn tapes (enter_all tapes st))
             as [r st1].
           reflexivity.
        -- rewrite grad_fn_vjps_no_jacobians, Htransform, Hmethod
             by assumption.
           unfold device_calls. simpl. lia.
      * rewrite grad_fn_vjps_no_jacobians, Htransform by assumption.
        unfold device_calls. simpl. lia.
    + unfold grad_fn_vjps. rewrite Hjacs. unfold device_calls. simpl. lia.
  - intros Hjacs. rewrite grad_fn_events. unfold grad_fn_vjps.
    destruct (snd ans) as [|jac jacs]; [contradiction|reflexivity].
Qed.

(** With Jacobians stored by the forward pass the VJPs depend on [dy], the
    Jacobians and [_n] only: the tapes, the device, [execute_fn] and
    [gradient_fn] are not looked at, so a [gradient_fn] of any kind is
    accepted, and the tapes stay as they are. *)
Theorem stored_jacobians_ignore_gradient_fn
    (ans : list Tensor * list Jac)
    (parameters parameters' : list (list (value num)))
    (tapes tapes' : list tape_ref) (device device' : device_ref)
    (execute_fn execute_fn' : execute_fn_t)
    (gradient_fn gradient_fn' : gradient_fn_t) (_n : Z)
    (dy : DY * DY) (st : store) :
  snd ans <> [] ->
  grad_fn ans parameters tapes device execute_fn gradient_fn _n dy st
  = grad_fn ans parameters' tapes' device' execute_fn' gradient_fn' _n dy st
  /\ grad_fn ans parameters tapes device execute_fn gradient_fn _n dy st
     = (rbind (_vector_jacobian_products (fst dy) (snd ans))
          (fun vjps => Ok (normalize_vjps _n vjps)), st, []).
Proof.
  intros Hjacs. unfold grad_fn, grad_fn_vjps.
  destruct (snd ans) as [|jac jacs]; [contradiction|].
  split; [reflexivity|].
  unfold bind, classical, ret.
  destruct (_vector_jacobian_products (fst dy) (jac :: jacs)); reflexivity.
Qed.

(** The device method is recognised by the identity of the device it is
    bound to: with a module that [inspect.getmodule] finds and that is
    outside the gradient-transform namespace, a plain function, or a method
    bound to another device, is refused with [ValueError] and is not
    called. *)
Theorem method_of_other_device_is_unknown
    (ans : list Tensor * list Jac) (parameters : list (list (value num)))
    (tapes : list tape_ref) (device : device_ref)
    (execute_fn : execute_fn_t) (gradient_fn : gradient_fn_t) (_n : Z)
    (dy : DY * DY) (st : store) :
  snd ans = [] ->
  is_gradient_transform gradient_fn = Ok false ->
  gf_self gradient_fn <> Some device ->
  grad_fn ans parameters tapes device execute_fn gradient_fn _n dy st
  = (Raise (ValueError "Unknown gradient function!!!"), st, []).
Proof.
  intros Hjacs Htransform Hself.
  assert (Hmethod : is_device_method gradient_fn device = false).
  { unfold is_device_method.
    destruct (gf_self gradient_fn) as [self|]; [|reflexivity].
    destruct (Nat.eqb_spec self device) as [->|Hne]; [|reflexivity].
    contradiction. }
  unfold grad_fn, bind.
  rewrite grad_fn_vjps_no_jacobians, Htransform, Hmethod by assumption.
  reflexivity.
Qed.

(** Without stored Jacobians, a [gradient_fn] for which [inspect.getmodule]
    returns [None] makes the module test raise [AttributeError] before a
    branch is chosen: nothing is called and no tape is touched, also when
    [gradient_fn] is a method bound to the device, and the error is not the
    one of an unknown gradient function. *)
Theorem unresolved_module_raises_attribute_error
    (ans : list Tensor * list Jac) (parameters : list (list (value num)))
    (tapes : list tape_ref) (device : device_ref)
    (execute_fn : execute_fn_t) (gradient_fn : gradient_fn_t) (_n : Z)
    (dy : DY * DY) (st : store) :
  snd ans = [] ->
  gf_module gradient_fn = None ->
  grad_fn ans parameters tapes device execute_fn gradient_fn _n dy st
  = (Raise (AttributeError "'NoneType' object has no attribute '__name__'"),
     st, []).
Proof.
  intros Hjacs Hmodule. unfold grad_fn, bind.
  rewrite grad_fn_vjps_no_jacobians by assumption.
  unfold is_gradient_transform, getmodule_name. rewrite Hmodule.
  reflexivity.
Qed.

End interface.

Arguments store : clear implicits.
Arguments M : clear implicits.
Arguments execute_fn_t : clear implicits.
Arguments gradient_fn_t : clear implicits.
Arguments post_fn_t : clear implicits.

(** *** A small device

    Numbers, results, tensors, Jacobians and upstream gradients are all in
    [Z]. Tape 0 holds a traced parameter and a plain one. *)

Definition demo_store : store Z := fun t =>
  match t with
  | 0 => [ArrayBox (Plain 1%Z); Plain 2%Z]
  | _ => [Plain 5%Z]
  end.

Definition demo_device : device_ref := 0.

Definition sum_payload (ps : list (value Z)) : Z :=
  fold_right Z.add 0%Z (map payload ps).

(** Backward accumulation: results and no Jacobian. *)
Definition backward_execute_fn : execute_fn_t Z Z Z := fun tapes st =>
  (Ok (map (fun t => sum_payload (st t)) tapes, []), st).

(** Forward accumulation: results and one Jacobian per tape. *)
Definition forward_execute_fn : execute_fn_t Z Z Z := fun tapes st =>
  (Ok (map (fun t => sum_payload (st t)) tapes,
       map (fun t => Z.of_nat (length (st t))) tapes), st).

(** A device that fails, having overwritten the parameters of the tapes. *)
Definition failing_execute_fn : execute_fn_t Z Z Z := fun tapes st =>
  (Raise (Exception "device failure"), fun _ => []).

Definition demo_vector_jacobian_products (dy : Z) (jacs : list Z)
    : result (list (value Z)) :=
  Ok (map (fun j => Plain (dy * j)%Z) jacs).

(** The gradient tapes are the tapes of the batch; the VJPs come out in two
    boxes. *)
Definition demo_batch_vjp (tapes : list tape_ref) (dy : Z)
    (gradient_fn : gradient_fn_t Z Z) (st : store Z)
    : result (list tape_ref * post_fn_t Z Z) * store Z :=
  (Ok (tapes,
       fun res => Ok (map (fun r => ArrayBox (ArrayBox (Plain (dy * r)%Z)))
                        res)), st).

Definition param_shift : gradient_fn_t Z Z :=
  {| gf_module := Some "pennylane.gradients.parameter_shift";
     gf_self := None;
     gf_call := fun tapes st => (Ok [], st) |}.

Definition adjoint_jacobian (device : device_ref) : gradient_fn_t Z Z :=
  {| gf_module := Some "pennylane.devices.default_qubit";
     gf_self := Some device;
     gf_call := fun tapes st =>
       (Ok (map (fun t => Z.of_nat (length (st t))) tapes), st) |}.

(** The [lambda x: x] of [test_unknown_gradient_fn_error]. *)
Definition unknown_gradient_fn : gradient_fn_t Z Z :=
  {| gf_module := Some "test_batch_torch";
     gf_self := None;
     gf_call := fun tapes st => (Ok (map Z.of_nat tapes), st) |}.


(** A method of the device whose module is not in [sys.modules]. *)
Definition detached_method (device : device_ref) : gradient_fn_t Z Z :=
  {| gf_module := None;
     gf_self := Some device;
     gf_call := fun tapes st =>
       (Ok (map (fun t => Z.of_nat (length (st t))) tapes), st) |}.

Definition demo_execute :=
  @execute Z Z Z Z (fun r : Z => r).
Definition demo_execute_primitive :=
  @_execute Z Z Z Z (fun r : Z => r).
Definition demo_grad_fn_vjps :=
  @grad_fn_vjps Z Z Z Z Z (fun r : Z => r) demo_vector_jacobian_products
    demo_batch_vjp.
Definition demo_grad_fn :=
  @grad_fn Z Z Z Z Z (fun r : Z => r) demo_vector_jacobian_products
    demo_batch_vjp.
Definition demo_grad_fn_max_diff :=
  @grad_fn_max_diff Z Z Z Z Z (fun r : Z => r) demo_vector_jacobian_products
    demo_batch_vjp.
Definition demo_call_chain :=
  @call_chain Z Z Z Z Z (fun r : Z => r) demo_vector_jacobian_products
    demo_batch_vjp.

(** *** The properties on the small device *)



(** The device fails and has overwritten the tapes; tape 0, twice in the
    batch, has its traced parameter back. *)
Lemma unwrap_scope_restores_parameters_witness :
  get_parameters 0
    (final_store (demo_execute_primitive [] [0; 0] demo_device
                    failing_execute_fn param_shift 1 demo_store))
  = [ArrayBox (Plain 1%Z); Plain 2%Z]
  /\ outcome (demo_execute_primitive [] [0; 0] demo_device
                failing_execute_fn param_shift 1 demo_store)
     = Raise (Exception "device failure")
  /\ get_parameters 0
       (final_store (demo_grad_fn ([3%Z], []) [] [0; 0] demo_device
                       backward_execute_fn (adjoint_jacobian demo_device)
                       1 (2%Z, 0%Z) demo_store))
     = [ArrayBox (Plain 1%Z); Plain 2%Z].
Proof.
  split; [|split].
  - apply (proj1 (unwrap_scope_restores_parameters (fun r : Z => r)
                    demo_vector_jacobian_products demo_batch_vjp)
             [] [0; 0] demo_device failing_execute_fn param_shift 1%Z
             demo_store 0).
    simpl. left. reflexivity.
  - apply (proj1 (proj2 (unwrap_scope_restores_parameters (fun r : Z => r)
                           demo_vector_jacobian_products demo_batch_vjp))
             [] [0; 0] demo_device failing_execute_fn param_shift 1%Z
             demo_store (Exception "device failure") (fun _ => [])).
    reflexivity.
  - apply (proj1 (proj2 (proj2 (unwrap_scope_restores_parameters
                                  (fun r : Z => r)
                                  demo_vector_jacobian_products
                                  demo_batch_vjp)))
             ([3%Z], []) [] [0; 0] demo_device backward_execute_fn
             (adjoint_jacobian demo_device) 1%Z (2%Z, 0%Z) demo_store 0);
      [reflexivity | reflexivity | reflexivity | simpl; left; reflexivity].
Defined.

(** Differentiating three times through [param_shift]. *)
Lemma demo_call_chain_three : demo_call_chain [1; 2; 3]%Z.
Proof.
  apply (chain_reenter _ _ _ [1%Z] 2%Z 3%Z).
  - apply (chain_reenter _ _ _ [] 1%Z 2%Z).
    + apply chain_outermost.
      exists [0], demo_device, backward_execute_fn, param_shift, demo_store.
      reflexivity.
    + exists ([], []), [], [0], demo_device, backward_execute_fn,
        param_shift, (1%Z, 0%Z), demo_store.
      simpl. left. reflexivity.
  - exists ([], []), [], [0], demo_device, backward_execute_fn,
      param_shift, (1%Z, 0%Z), demo_store.
    simpl. left. reflexivity.
Defined.

Lemma nesting_level_invariant_witness :
  demo_call_chain [1; 2; 3]%Z
  /\ (forall k m, [1; 2; 3]%Z !! k = Some m -> m = (1 + Z.of_nat k)%Z)
  /\ (forall i j a b, i <= j -> [1; 2; 3]%Z !! i = Some a ->
        [1; 2; 3]%Z !! j = Some b -> (1 <= a <= b)%Z).
Proof.
  split; [exact demo_call_chain_three|]. split.
  - exact (proj1 (proj2 (proj2 (proj2
             (nesting_level_invariant (fun r : Z => r)
                demo_vector_jacobian_products demo_batch_vjp))))
             [1; 2; 3]%Z demo_call_chain_three).
  - exact (proj2 (proj2 (proj2 (proj2
             (nesting_level_invariant (fun r : Z => r)
                demo_vector_jacobian_products demo_batch_vjp))))
             [1; 2; 3]%Z demo_call_chain_three).
Defined.

(** At level 1 one of the two boxes of the VJP is removed. *)
Lemma grad_fn_output_normalization_witness :
  outcome (demo_grad_fn ([], []) [] [0] demo_device backward_execute_fn
             param_shift 1 (1%Z, 0%Z) demo_store)
  = Ok [ArrayBox (Plain 3%Z)]
  /\ exists vjps,
       outcome (demo_grad_fn_vjps ([], []) [] [0] demo_device
                  backward_execute_fn param_shift 1 (1%Z, 0%Z) demo_store)
       = Ok vjps
       /\ length [ArrayBox (Plain 3%Z)] = length vjps.
Proof.
  split; [reflexivity|].
  destruct (grad_fn_output_normalization (fun r : Z => r)
              demo_vector_jacobian_products demo_batch_vjp
              ([], []) [] [0] demo_device backward_execute_fn param_shift
              1%Z (1%Z, 0%Z) demo_store [ArrayBox (Plain 3%Z)] eq_refl)
    as (vjps & Hvjps & Hlen & _).
  exists vjps. split; assumption.
Defined.

(** C5 does not hold as stated: with the [lambda x: x] of
    [test_unknown_gradient_fn_error] as [gradient_fn], [execute] raises
    nothing; it calls the device and returns the result. *)
Lemma unknown_gradient_fn_counterexample :
  is_gradient_transform unknown_gradient_fn = Ok false
  /\ is_device_method unknown_gradient_fn demo_device = false
  /\ outcome (demo_execute [0] demo_device backward_execute_fn
                unknown_gradient_fn 1 demo_store) = Ok [3%Z]
  /\ events (demo_execute [0] demo_device backward_execute_fn
               unknown_gradient_fn 1 demo_store)
     = [Enter_execute [0] 1; Call_execute_fn [0]]
  /\ existsb is_device_call
       (events (demo_execute [0] demo_device backward_execute_fn
                  unknown_gradient_fn 1 demo_store)) = true.
Proof. repeat split. Qed.

Lemma unknown_gradient_fn_raises_on_backward_witness :
  demo_grad_fn ([3%Z], []) [] [0] demo_device backward_execute_fn
    unknown_gradient_fn 1 (1%Z, 0%Z) demo_store
  = (Raise (ValueError "Unknown gradient function!!!"), demo_store, []).
Proof.
  exact (proj1 (unknown_gradient_fn_raises_on_backward (fun r : Z => r)
                  demo_vector_jacobian_products demo_batch_vjp
                  ([3%Z], []) [] [0] demo_device backward_execute_fn
                  unknown_gradient_fn 1 (1%Z, 0%Z) demo_store
                  eq_refl eq_refl) eq_refl).
Defined.

(** The ceiling 1 of [test_max_diff]: the VJP of the second order is zero,
    or the error, where the resolver without ceiling returns 3; the VJP of
    the first order is the one without ceiling. *)
Lemma max_diff_ceiling_blocks_higher_orders_witness :
  demo_grad_fn_max_diff (Some 1%Z) Zero_beyond 0%Z ([], []) [] [0]
    demo_device backward_execute_fn param_shift 2 (1%Z, 0%Z) demo_store
  = (Ok [Plain 0%Z], demo_store, [])
  /\ demo_grad_fn_max_diff (Some 1%Z) Raise_beyond 0%Z ([], []) [] [0]
       demo_device backward_execute_fn param_shift 2 (1%Z, 0%Z) demo_store
     = (Raise (Exception "derivative order beyond max_diff is not supported"),
        demo_store, [])
  /\ outcome (demo_grad_fn ([], []) [] [0] demo_device backward_execute_fn
                param_shift 2 (1%Z, 0%Z) demo_store)
     = Ok [Plain 3%Z]
  /\ demo_grad_fn_max_diff (Some 1%Z) Zero_beyond 0%Z ([], []) [] [0]
       demo_device backward_execute_fn param_shift 1 (1%Z, 0%Z) demo_store
     = demo_grad_fn ([], []) [] [0] demo_device backward_execute_fn
         param_shift 1 (1%Z, 0%Z) demo_store.
Proof.
  split; [|split; [|split]].
  - apply (proj1 (max_diff_ceiling_blocks_higher_orders (fun r : Z => r)
                    demo_vector_jacobian_products demo_batch_vjp
                    (Some 1%Z) Zero_beyond 0%Z ([], []) [] [0] demo_device
                    backward_execute_fn param_shift 2%Z (1%Z, 0%Z)
                    demo_store) 1%Z eq_refl eq_refl).
  - apply (proj1 (max_diff_ceiling_blocks_higher_orders (fun r : Z => r)
                    demo_vector_jacobian_products demo_batch_vjp
                    (Some 1%Z) Raise_beyond 0%Z ([], []) [] [0] demo_device
                    backward_execute_fn param_shift 2%Z (1%Z, 0%Z)
                    demo_store) 1%Z eq_refl eq_refl).
  - reflexivity.
  - apply (proj2 (max_diff_ceiling_blocks_higher_orders (fun r : Z => r)
                    demo_vector_jacobian_products demo_batch_vjp
                    (Some 1%Z) Zero_beyond 0%Z ([], []) [] [0] demo_device
                    backward_execute_fn param_shift 1%Z (1%Z, 0%Z)
                    demo_store)).
    right. exists 1%Z. split; [reflexivity|lia].
Defined.

Lemma transform_recursion_at_every_level_witness :
  events (demo_grad_fn ([], []) [] [0] demo_device backward_execute_fn
            param_shift 2 (1%Z, 0%Z) demo_store)
  = [Call_batch_vjp [0]; Enter_execute [0] (2 + 1); Call_execute_fn [0]].
Proof.
  refine (proj1 (transform_recursion_at_every_level (fun r : Z => r)
                   demo_vector_jacobian_products demo_batch_vjp
                   ([], []) [] [0] demo_device backward_execute_fn
                   param_shift 2%Z (1%Z, 0%Z) demo_store [0] _ demo_store
                   eq_refl eq_refl eq_refl)).
Defined.

Lemma forward_mode_rejects_gradient_transform_witness :
  execute_with_mode (fun r : Z => r) [0] demo_device forward_execute_fn
    param_shift "forward" demo_store
  = (Raise (ValueError
              "Gradient transforms cannot be used with mode='forward'"),
     demo_store, []).
Proof.
  exact (forward_mode_rejects_gradient_transform (fun r : Z => r) [0]
           demo_device forward_execute_fn param_shift demo_store eq_refl).
Defined.
(** Stored Jacobians with [param_shift] and with the unknown function. *)
Lemma stored_jacobians_ignore_gradient_fn_witness :
  demo_grad_fn ([3%Z], [7%Z]) [] [0] demo_device forward_execute_fn
    param_shift 1 (2%Z, 0%Z) demo_store
  = demo_grad_fn ([3%Z], [7%Z]) [[Plain 1%Z]] [1; 2] 5 backward_execute_fn
      unknown_gradient_fn 1 (2%Z, 0%Z) demo_store.
Proof.
  exact (proj1 (stored_jacobians_ignore_gradient_fn (fun r : Z => r)
                  demo_vector_jacobian_products demo_batch_vjp
                  ([3%Z], [7%Z]) [] [[Plain 1%Z]] [0] [1; 2] demo_device 5
                  forward_execute_fn backward_execute_fn param_shift
                  unknown_gradient_fn 1 (2%Z, 0%Z) demo_store
                  ltac:(discriminate))).
Defined.

(** The gradient method of device 1 with device 0. *)
Lemma method_of_other_device_is_unknown_witness :
  demo_grad_fn ([3%Z], []) [] [0] demo_device backward_execute_fn
    (adjoint_jacobian 1) 1 (2%Z, 0%Z) demo_store
  = (Raise (ValueError "Unknown gradient function!!!"), demo_store, []).
Proof.
  apply (method_of_other_device_is_unknown (fun r : Z => r)
           demo_vector_jacobian_products demo_batch_vjp);
    [reflexivity | reflexivity | discriminate].
Defined.

(** The method of the device with a module that is not loaded. *)
Lemma unresolved_module_raises_attribute_error_witness :
  demo_grad_fn ([3%Z], []) [] [0] demo_device backward_execute_fn
    (detached_method demo_device) 1 (2%Z, 0%Z) demo_store
  = (Raise (AttributeError "'NoneType' object has no attribute '__name__'"),
     demo_store, []).
Proof.
  apply (unresolved_module_raises_attribute_error (fun r : Z => r)
           demo_vector_jacobian_products demo_batch_vjp);
    reflexivity.
Defined.

End Autograd.
